(** * bare-minimum-3d: the scene-cube renderer

    A shallow embedding of [src/scene-cube-renderer.ts] and the properties
    of its output.  The renderer turns a cube whose points are already
    projected to 2D, together with a set of per-feature options, into an
    ordered list of drawable 2D specifications. *)

From Stdlib Require Import Floats.PrimFloat.
From Stdlib Require Import Bool Arith Lia List String DecimalString.
Import ListNotations.

Open Scope string_scope.
Open Scope list_scope.

(** ** JavaScript values used by the renderer *)

(** A JavaScript [number] is an IEEE 754 binary64 value, which is what
    Rocq's primitive [float] is. *)
Definition number : Set := float.

(** [ToBoolean] on a number: [+0], [-0] and [NaN] are falsy, every other
    number is truthy. *)
Definition toBoolean (n : number) : bool :=
  negb (is_zero n || is_nan n).

(** [v || d] where [v] is a number-typed property that may have been left
    out of its object ([None] stands for [undefined]). *)
Definition or_else (v : option number) (d : number) : number :=
  match v with
  | Some n => if toBoolean n then n else d
  | None => d
  end.

(** The text a template literal inserts for an array index. *)
Definition index_text (index : nat) : string :=
  NilZero.string_of_uint (Nat.to_uint index).

(** The only exception the renderer can raise: reading a property of
    [undefined], which is what an array read past the end evaluates to. *)
Inductive exception : Set := TypeError.

Inductive completion (A : Type) : Type :=
| Returned (a : A)
| Thrown (e : exception).
Arguments Returned {A} a.
Arguments Thrown {A} e.

(** [arr[i]] immediately followed by a property read of the element. *)
Definition element {A : Type} (arr : list A) (i : nat) : completion A :=
  match nth_error arr i with
  | Some v => Returned v
  | None => Thrown TypeError
  end.

(** ** Data model *)

Module Vector.
Record t : Set := mk { x : number; y : number }.
End Vector.

Inductive DataSpecType : Set := polygon | lines | points.

Module Polygon2dSpecs.
Record t : Set := mk {
  x : list number;
  y : list number;
  borderColor : string;
  borderOpacity : number;
  borderSize : number;
  fillColor : string;
  fillOpacity : number;
  type : DataSpecType;
  id : string
}.
End Polygon2dSpecs.

Module Lines2dSpecs.
Record t : Set := mk {
  x0 : list number;
  y0 : list number;
  x1 : list number;
  y1 : list number;
  color : string;
  opacity : number;
  size : number;
  type : DataSpecType;
  id : string
}.
End Lines2dSpecs.

Module Points2dSpecs.
Record t : Set := mk {
  x : list number;
  y : list number;
  color : string;
  opacity : number;
  size : number;
  type : DataSpecType;
  id : string
}.
End Points2dSpecs.

(** The union [Data2dSpecs] of the three shapes. *)
Inductive Data2dSpecs : Set :=
| Polygon2d (s : Polygon2dSpecs.t)
| Lines2d (s : Lines2dSpecs.t)
| Points2d (s : Points2dSpecs.t).

(** The tag ([id]) a specification carries. *)
Definition tag (d : Data2dSpecs) : string :=
  match d with
  | Polygon2d s => Polygon2dSpecs.id s
  | Lines2d s => Lines2dSpecs.id s
  | Points2d s => Points2dSpecs.id s
  end.

(** Modelled from the spec: the declarations of [parameter-types] are not
    part of the sources.  An axes bundle carries the three axis colours,
    the colour of the intersection point, and three numeric fields that a
    configuration may omit. *)
Module AxesOptions.
Record t : Set := mk {
  intersectionPointColor : string;
  intersectionPointSize : option number;
  xColor : string;
  yColor : string;
  zColor : string;
  lineSize : option number;
  edgeOpacity : option number
}.
End AxesOptions.

(** Modelled from the spec: the scene-edges configuration, a colour and
    an opacity that may be omitted. *)
Module EdgeOptions.
Record t : Set := mk { color : string; opacity : option number }.
End EdgeOptions.

(** Modelled from the spec: the spec describes the [xyPlane] and
    [crossLines] options only as present or absent; they are given the
    shape of a colour and opacity style here. *)
Module PlaneOptions.
Record t : Set := mk { color : string; opacity : option number }.
End PlaneOptions.

(** Every feature is independently absent ([None]) or configured. *)
Module SceneOptions.
Record t : Set := mk {
  sceneEdges : option EdgeOptions.t;
  xyPlane : option PlaneOptions.t;
  crossLines : option PlaneOptions.t;
  edgeAxes : option AxesOptions.t;
  worldAxes : option AxesOptions.t;
  cubeAxes : option AxesOptions.t
}.
End SceneOptions.

(** Modelled from the spec: the part of [SceneCube] the renderer reads,
    the point sets as arrays and the two origins as single points. *)
Module SceneCube.
Record t : Set := mk {
  vertexPoints2d : list Vector.t;
  crossPoints2d : list Vector.t;
  axes2d : list Vector.t;
  worldAxes2d : list Vector.t;
  center2d : Vector.t;
  worldOrigin2d : Vector.t
}.
End SceneCube.

(** ** The face table *)

Definition POINT_FACE_SET : list (list nat) :=
  [ [0; 1; 3; 2];
    [1; 5; 7; 3];
    [5; 4; 6; 7];
    [4; 0; 2; 6];
    [4; 5; 1; 0];
    [2; 3; 7; 6] ].

(** How many faces of the table a vertex index occurs in. *)
Definition faces_with (v : nat) : nat :=
  List.length (filter (fun face => existsb (Nat.eqb v) face) POINT_FACE_SET).

(** ** The shared axis-drawing routine *)

Definition drawAxis (p v : Vector.t) (color : string)
    (opacity size : number) (name : string) : Lines2dSpecs.t :=
  {| Lines2dSpecs.x0 := [Vector.x p];
     Lines2dSpecs.y0 := [Vector.y p];
     Lines2dSpecs.x1 := [Vector.x v];
     Lines2dSpecs.y1 := [Vector.y v];
     Lines2dSpecs.color := color;
     Lines2dSpecs.opacity := opacity;
     Lines2dSpecs.size := size;
     Lines2dSpecs.type := lines;
     Lines2dSpecs.id := "x-" ++ name |}%string.

Definition drawAxes (p0 vx vy vz : Vector.t) (name : string)
    (AxesOptions : AxesOptions.t) : list Data2dSpecs :=
  let intersectionPointColor := AxesOptions.intersectionPointColor AxesOptions in
  let intersectionPointSize := AxesOptions.intersectionPointSize AxesOptions in
  let xColor := AxesOptions.xColor AxesOptions in
  let yColor := AxesOptions.yColor AxesOptions in
  let zColor := AxesOptions.zColor AxesOptions in
  let lineSize := AxesOptions.lineSize AxesOptions in
  let edgeOpacity := AxesOptions.edgeOpacity AxesOptions in
  let opacity := or_else edgeOpacity 1%float in
  let size := or_else lineSize 1%float in
  let xAxis := drawAxis p0 vx xColor opacity size name in
  let yAxis := drawAxis p0 vy yColor opacity size name in
  let zAxis := drawAxis p0 vz zColor opacity size name in
  let centerPoint :=
    {| Points2dSpecs.x := [Vector.x p0];
       Points2dSpecs.y := [Vector.y p0];
       Points2dSpecs.color := intersectionPointColor;
       Points2dSpecs.opacity := 1%float;
       Points2dSpecs.size := or_else intersectionPointSize 3%float;
       Points2dSpecs.type := points;
       Points2dSpecs.id := ("point-" ++ name)%string |} in
  [Lines2d xAxis; Lines2d yAxis; Lines2d zAxis; Points2d centerPoint].

(** ** The renderer object and its methods *)

Record SceneCubeRenderer : Set := new {
  cube : SceneCube.t;
  sceneOptions : SceneOptions.t
}.

(** A method runs against the receiver [this]: it completes by returning a
    value or by throwing, and hands back the receiver as the call leaves
    it. *)
Definition method (A : Type) : Type :=
  SceneCubeRenderer -> completion A * SceneCubeRenderer.

Definition ret {A : Type} (a : A) : method A :=
  fun this => (Returned a, this).

Definition bind {A B : Type} (m : method A) (k : A -> method B) : method B :=
  fun this =>
    match m this with
    | (Returned a, this') => k a this'
    | (Thrown e, this') => (Thrown e, this')
    end.

Declare Scope method_scope.
Delimit Scope method_scope with method.
Notation "x <- c ;; k" := (bind c (fun x => k))
  (at level 100, c at next level, right associativity) : method_scope.
Open Scope method_scope.

(** [this.cube] and [this.sceneOptions]. *)
Definition this_cube : method SceneCube.t :=
  fun this => (Returned (cube this), this).

Definition this_sceneOptions : method SceneOptions.t :=
  fun this => (Returned (sceneOptions this), this).

(** A computation that does not touch the receiver. *)
Definition complete {A : Type} (c : completion A) : method A :=
  fun this => (c, this).

(** [arr[i].x] and [arr[i].y]. *)
Definition x_at (arr : list Vector.t) (i : nat) : method number :=
  v <- complete (element arr i) ;; ret (Vector.x v).

Definition y_at (arr : list Vector.t) (i : nat) : method number :=
  v <- complete (element arr i) ;; ret (Vector.y v).

(** [arr.forEach((item, index) => ...)], the callback working on the
    array [data] it pushes to. *)
Fixpoint forEach {A D : Type} (callback : A -> nat -> D -> method D)
    (arr : list A) (index : nat) (data : D) : method D :=
  match arr with
  | [] => ret data
  | item :: rest =>
      data' <- callback item index data ;;
      forEach callback rest (S index) data'
  end.

(** The value result and the receiver after running a method. *)
Definition result_of {A : Type} (m : method A) (this : SceneCubeRenderer)
  : completion A := fst (m this).

Definition receiver_after {A : Type} (m : method A) (this : SceneCubeRenderer)
  : SceneCubeRenderer := snd (m this).

(** A method is read-only when the receiver comes back as it went in,
    whether the call returns or throws. *)
Definition read_only {A : Type} (m : method A) : Prop :=
  forall this, receiver_after m this = this.

Definition drawBox : method (list Polygon2dSpecs.t) :=
  opts <- this_sceneOptions ;;
  match SceneOptions.sceneEdges opts with
  | None => ret []
  | Some edges =>
      c <- this_cube ;;
      let p := SceneCube.vertexPoints2d c in
      let color := EdgeOptions.color edges in
      let opacity := EdgeOptions.opacity edges in
      forEach
        (fun pointIndices index data =>
           match pointIndices with
           | a :: b :: c :: d :: _ =>
               ax <- x_at p a ;; bx <- x_at p b ;;
               cx <- x_at p c ;; dx <- x_at p d ;;
               ay <- y_at p a ;; by_ <- y_at p b ;;
               cy <- y_at p c ;; dy <- y_at p d ;;
               let plane :=
                 {| Polygon2dSpecs.x := [ax; bx; cx; dx];
                    Polygon2dSpecs.y := [ay; by_; cy; dy];
                    Polygon2dSpecs.borderColor := color;
                    Polygon2dSpecs.borderOpacity := or_else opacity 1%float;
                    Polygon2dSpecs.borderSize := 1%float;
                    Polygon2dSpecs.fillColor := color;
                    Polygon2dSpecs.fillOpacity := 0%float;
                    Polygon2dSpecs.type := polygon;
                    Polygon2dSpecs.id := ("plane-" ++ index_text index)%string |} in
               ret (data ++ [plane])
           | _ => complete (Thrown TypeError)
           end)
        POINT_FACE_SET 0 []
  end.

(** The three axis adapters look their points up and pass them to
    [drawAxes], whose first property read of a missing point throws. *)
Definition drawEdges : method (list Data2dSpecs) :=
  opts <- this_sceneOptions ;;
  match SceneOptions.edgeAxes opts with
  | None => ret []
  | Some edgeAxes =>
      c <- this_cube ;;
      let p := SceneCube.vertexPoints2d c in
      p6 <- complete (element p 6) ;;
      p7 <- complete (element p 7) ;;
      p4 <- complete (element p 4) ;;
      p2 <- complete (element p 2) ;;
      ret (drawAxes p6 p7 p4 p2 "edge" edgeAxes)
  end.

Definition drawWorldAxes : method (list Data2dSpecs) :=
  opts <- this_sceneOptions ;;
  match SceneOptions.worldAxes opts with
  | None => ret []
  | Some worldAxes =>
      c <- this_cube ;;
      let v := SceneCube.worldAxes2d c in
      let p_ := SceneCube.worldOrigin2d c in
      v0 <- complete (element v 0) ;;
      v1 <- complete (element v 1) ;;
      v2 <- complete (element v 2) ;;
      ret (drawAxes p_ v0 v1 v2 "worldAxes" worldAxes)
  end.

Definition drawCubeAxes : method (list Data2dSpecs) :=
  opts <- this_sceneOptions ;;
  match SceneOptions.cubeAxes opts with
  | None => ret []
  | Some cubeAxes =>
      c <- this_cube ;;
      let v := SceneCube.axes2d c in
      let p_ := SceneCube.center2d c in
      v0 <- complete (element v 0) ;;
      v1 <- complete (element v 1) ;;
      v2 <- complete (element v 2) ;;
      ret (drawAxes p_ v0 v1 v2 "axes" cubeAxes)
  end.

Definition drawXYplane : method (list Polygon2dSpecs.t) :=
  c <- this_cube ;;
  let p := SceneCube.vertexPoints2d c in
  x4 <- x_at p 4 ;; x5 <- x_at p 5 ;; x7 <- x_at p 7 ;; x6 <- x_at p 6 ;;
  y4 <- y_at p 4 ;; y5 <- y_at p 5 ;; y7 <- y_at p 7 ;; y6 <- y_at p 6 ;;
  let polygon_ :=
    {| Polygon2dSpecs.x := [x4; x5; x7; x6];
       Polygon2dSpecs.y := [y4; y5; y7; y6];
       Polygon2dSpecs.fillColor := "#0e2845";
       Polygon2dSpecs.fillOpacity := 0.5%float;
       Polygon2dSpecs.borderColor := "#0e2845";
       Polygon2dSpecs.borderOpacity := 1%float;
       Polygon2dSpecs.borderSize := 1%float;
       Polygon2dSpecs.type := polygon;
       Polygon2dSpecs.id := "xy-plane" |} in
  ret [polygon_].

Definition drawCrossSectionLines : method (list Lines2dSpecs.t) :=
  c <- this_cube ;;
  let p := SceneCube.crossPoints2d c in
  let t := SceneCube.vertexPoints2d c in
  a0 <- x_at p 0 ;; a1 <- x_at p 1 ;; a2 <- x_at p 1 ;; a3 <- x_at p 3 ;;
  a4 <- x_at t 6 ;; a5 <- x_at t 4 ;; a6 <- x_at t 5 ;; a7 <- x_at t 7 ;;
  b0 <- y_at p 0 ;; b1 <- y_at p 1 ;; b2 <- y_at p 1 ;; b3 <- y_at p 3 ;;
  b4 <- y_at t 6 ;; b5 <- y_at t 4 ;; b6 <- y_at t 5 ;; b7 <- y_at t 7 ;;
  c0 <- x_at p 3 ;; c1 <- x_at p 2 ;; c2 <- x_at p 4 ;; c3 <- x_at p 5 ;;
  c4 <- x_at t 4 ;; c5 <- x_at t 5 ;; c6 <- x_at t 7 ;; c7 <- x_at t 6 ;;
  d0 <- y_at p 3 ;; d1 <- y_at p 2 ;; d2 <- y_at p 4 ;; d3 <- y_at p 5 ;;
  d4 <- y_at t 4 ;; d5 <- y_at t 5 ;; d6 <- y_at t 7 ;; d7 <- y_at t 6 ;;
  let lines_ :=
    {| Lines2dSpecs.x0 := [a0; a1; a2; a3; a4; a5; a6; a7];
       Lines2dSpecs.y0 := [b0; b1; b2; b3; b4; b5; b6; b7];
       Lines2dSpecs.x1 := [c0; c1; c2; c3; c4; c5; c6; c7];
       Lines2dSpecs.y1 := [d0; d1; d2; d3; d4; d5; d6; d7];
       Lines2dSpecs.color := "#079992";
       Lines2dSpecs.opacity := 0.5%float;
       Lines2dSpecs.size := 1%float;
       Lines2dSpecs.type := lines;
       Lines2dSpecs.id := "cross-section-lines" |} in
  ret [lines_].

(** [render] reads the six option fields into locals it never uses and
    spreads the seven sub-renderer results into one array. *)
Definition render : method (list Data2dSpecs) :=
  opts <- this_sceneOptions ;;
  box <- drawBox ;;
  plane1 <- drawXYplane ;;
  edges <- drawEdges ;;
  plane2 <- drawXYplane ;;
  cross <- drawCrossSectionLines ;;
  world <- drawWorldAxes ;;
  axes <- drawCubeAxes ;;
  ret (map Polygon2d box ++ map Polygon2d plane1 ++ edges
         ++ map Polygon2d plane2 ++ map Lines2d cross ++ world ++ axes).

(** ** Well-formed snapshots *)

(** The snapshot supplies every point the renderer indexes: vertices 0 to
    7, cross-section points 0 to 5 and three direction points per axis
    set. *)
Definition well_formed (c : SceneCube.t) : bool :=
  ((8 <=? List.length (SceneCube.vertexPoints2d c))
   && (6 <=? List.length (SceneCube.crossPoints2d c))
   && (3 <=? List.length (SceneCube.axes2d c))
   && (3 <=? List.length (SceneCube.worldAxes2d c)))%nat.

(** The tags of a returned list, in order. *)
Definition tags (c : completion (list Data2dSpecs)) : completion (list string) :=
  match c with
  | Returned l => Returned (map tag l)
  | Thrown e => Thrown e
  end.

(** ** Vocabulary for the properties of the output *)

(** The snapshot has every point this receiver's [render] reads: all
    eight vertices and six cross-section points always, and three
    direction points of an axis set only when that set is configured. *)
Definition readable (this : SceneCubeRenderer) : bool :=
  let c := cube this in
  let opts := sceneOptions this in
  ((8 <=? List.length (SceneCube.vertexPoints2d c))
   && (6 <=? List.length (SceneCube.crossPoints2d c))
   && match SceneOptions.worldAxes opts with
      | Some _ => 3 <=? List.length (SceneCube.worldAxes2d c)
      | None => true
      end
   && match SceneOptions.cubeAxes opts with
      | Some _ => 3 <=? List.length (SceneCube.axes2d c)
      | None => true
      end)%nat.

(** [l] when the feature is configured, nothing otherwise. *)
Definition when {A B : Type} (feature : option A) (l : list B) : list B :=
  match feature with
  | Some _ => l
  | None => []
  end.

(** The coordinate sequences of a specification run in parallel, a line
    bundle has at least one segment, and the [type] field names the shape
    the specification has. *)
Definition well_shaped (d : Data2dSpecs) : Prop :=
  match d with
  | Polygon2d s =>
      List.length (Polygon2dSpecs.x s) = List.length (Polygon2dSpecs.y s)
      /\ Polygon2dSpecs.type s = polygon
  | Lines2d s =>
      1 <= List.length (Lines2dSpecs.x0 s)
      /\ List.length (Lines2dSpecs.y0 s) = List.length (Lines2dSpecs.x0 s)
      /\ List.length (Lines2dSpecs.x1 s) = List.length (Lines2dSpecs.x0 s)
      /\ List.length (Lines2dSpecs.y1 s) = List.length (Lines2dSpecs.x0 s)
      /\ Lines2dSpecs.type s = lines
  | Points2d s =>
      List.length (Points2dSpecs.x s) = List.length (Points2dSpecs.y s)
      /\ Points2dSpecs.type s = points
  end.

(** The snapshot cut down to the points with an index the renderer can
    ask for. *)
Definition first_points (c : SceneCube.t) : SceneCube.t :=
  {| SceneCube.vertexPoints2d := firstn 8 (SceneCube.vertexPoints2d c);
     SceneCube.crossPoints2d := firstn 6 (SceneCube.crossPoints2d c);
     SceneCube.axes2d := firstn 3 (SceneCube.axes2d c);
     SceneCube.worldAxes2d := firstn 3 (SceneCube.worldAxes2d c);
     SceneCube.center2d := SceneCube.center2d c;
     SceneCube.worldOrigin2d := SceneCube.worldOrigin2d c |}.

(** In the vertex labelling the three bits of an index say right, bottom
    and back: two indices are the ends of one cube edge when they differ
    in exactly one bit. *)
Definition along_an_edge (a b : nat) : bool :=
  let differ := Nat.lxor a b in
  (differ =? 1)%nat || (differ =? 2)%nat || (differ =? 4)%nat.

(** The corners of a face paired with their successors, the last corner
    with the first. *)
Definition border (face : list nat) : list (nat * nat) :=
  match face with
  | [] => []
  | first :: rest => combine face (rest ++ [first])
  end.

(** ** Sample inputs *)

Module Sample.
Definition pt (a b : number) : Vector.t := Vector.mk a b.
Arguments pt (a b)%_float.

Definition vertices : list Vector.t :=
  [ pt 1 4; pt 5 4; pt 1 0; pt 5 0; pt 0 3; pt 4 3; pt 0 (-1); pt 4 (-1) ]%float.

Definition crosses : list Vector.t :=
  [ pt 2 3; pt 0 1; pt 4 1; pt 2 (-1); pt 1 2; pt 3 0 ]%float.

Definition the_cube : SceneCube.t :=
  {| SceneCube.vertexPoints2d := vertices;
     SceneCube.crossPoints2d := crosses;
     SceneCube.axes2d := [ pt 3 1; pt 2 2; pt 2.5 1.5 ]%float;
     SceneCube.worldAxes2d := [ pt 1 0; pt 0 1; pt 0 0.5 ]%float;
     SceneCube.center2d := pt 2 1;
     SceneCube.worldOrigin2d := pt 0 0 |}%float.

(** A snapshot the collaborator should never hand over: one vertex short. *)
Definition short_cube : SceneCube.t :=
  {| SceneCube.vertexPoints2d := removelast vertices;
     SceneCube.crossPoints2d := crosses;
     SceneCube.axes2d := [];
     SceneCube.worldAxes2d := [];
     SceneCube.center2d := pt 2 1;
     SceneCube.worldOrigin2d := pt 0 0 |}%float.

Definition axes_style : AxesOptions.t :=
  {| AxesOptions.intersectionPointColor := "white";
     AxesOptions.intersectionPointSize := None;
     AxesOptions.xColor := "red";
     AxesOptions.yColor := "green";
     AxesOptions.zColor := "blue";
     AxesOptions.lineSize := Some 2%float;
     AxesOptions.edgeOpacity := Some 0.5%float |}.

Definition zero_style : AxesOptions.t :=
  {| AxesOptions.intersectionPointColor := "white";
     AxesOptions.intersectionPointSize := Some 0%float;
     AxesOptions.xColor := "red";
     AxesOptions.yColor := "green";
     AxesOptions.zColor := "blue";
     AxesOptions.lineSize := Some 0%float;
     AxesOptions.edgeOpacity := Some 0%float |}.

Definition nothing : SceneOptions.t :=
  {| SceneOptions.sceneEdges := None;
     SceneOptions.xyPlane := None;
     SceneOptions.crossLines := None;
     SceneOptions.edgeAxes := None;
     SceneOptions.worldAxes := None;
     SceneOptions.cubeAxes := None |}.

Definition everything : SceneOptions.t :=
  {| SceneOptions.sceneEdges := Some (EdgeOptions.mk "#fff" (Some 0.75%float));
     SceneOptions.xyPlane := Some (PlaneOptions.mk "#0e2845" None);
     SceneOptions.crossLines := Some (PlaneOptions.mk "#079992" None);
     SceneOptions.edgeAxes := Some axes_style;
     SceneOptions.worldAxes := Some axes_style;
     SceneOptions.cubeAxes := Some zero_style |}.

(** The same features as [everything] with the two unread fields left
    out. *)
Definition unplaned : SceneOptions.t :=
  {| SceneOptions.sceneEdges := SceneOptions.sceneEdges everything;
     SceneOptions.xyPlane := None;
     SceneOptions.crossLines := None;
     SceneOptions.edgeAxes := SceneOptions.edgeAxes everything;
     SceneOptions.worldAxes := SceneOptions.worldAxes everything;
     SceneOptions.cubeAxes := SceneOptions.cubeAxes everything |}.

Definition transparent_edges : SceneOptions.t :=
  {| SceneOptions.sceneEdges := Some (EdgeOptions.mk "#fff" (Some 0%float));
     SceneOptions.xyPlane := None;
     SceneOptions.crossLines := None;
     SceneOptions.edgeAxes := None;
     SceneOptions.worldAxes := None;
     SceneOptions.cubeAxes := None |}.
End Sample.

Module Sample2.
(** The sample snapshot with points past the last index ever read. *)
Definition crowded_cube : SceneCube.t :=
  {| SceneCube.vertexPoints2d := Sample.vertices ++ [Sample.pt 9 9; Sample.pt 8 8];
     SceneCube.crossPoints2d := Sample.crosses ++ [Sample.pt 7 7];
     SceneCube.axes2d := SceneCube.axes2d Sample.the_cube ++ [Sample.pt 6 6];
     SceneCube.worldAxes2d := SceneCube.worldAxes2d Sample.the_cube ++ [Sample.pt 5 5];
     SceneCube.center2d := Sample.pt 2 1;
     SceneCube.worldOrigin2d := Sample.pt 0 0 |}.

(** Vertices and cross-section points only: no axis direction points. *)
Definition bare_cube : SceneCube.t :=
  {| SceneCube.vertexPoints2d := Sample.vertices;
     SceneCube.crossPoints2d := Sample.crosses;
     SceneCube.axes2d := [];
     SceneCube.worldAxes2d := [];
     SceneCube.center2d := Sample.pt 2 1;
     SceneCube.worldOrigin2d := Sample.pt 0 0 |}.

(** One cross-section point short. *)
Definition uncrossed_cube : SceneCube.t :=
  {| SceneCube.vertexPoints2d := Sample.vertices;
     SceneCube.crossPoints2d := removelast Sample.crosses;
     SceneCube.axes2d := SceneCube.axes2d Sample.the_cube;
     SceneCube.worldAxes2d := SceneCube.worldAxes2d Sample.the_cube;
     SceneCube.center2d := Sample.pt 2 1;
     SceneCube.worldOrigin2d := Sample.pt 0 0 |}.

Definition box_and_edges : SceneOptions.t :=
  {| SceneOptions.sceneEdges := SceneOptions.sceneEdges Sample.everything;
     SceneOptions.xyPlane := None;
     SceneOptions.crossLines := None;
     SceneOptions.edgeAxes := SceneOptions.edgeAxes Sample.everything;
     SceneOptions.worldAxes := None;
     SceneOptions.cubeAxes := None |}.

End Sample2.

(** A snapshot one vertex short makes the first vertex read of index 7
    throw, and [render] with it. *)
Example render_short_snapshot_throws :
  well_formed Sample.short_cube = false
  /\ result_of render (new Sample.short_cube Sample.nothing) = Thrown TypeError
  /\ result_of drawBox (new Sample.short_cube Sample.transparent_edges)
     = Thrown TypeError.
Proof. repeat split. Qed.

(** The draw order on the sample scene with every feature switched on. *)
Example render_tags_in_order :
  tags (result_of render (new Sample.the_cube Sample.everything))
  = Returned
      [ "plane-0"; "plane-1"; "plane-2"; "plane-3"; "plane-4"; "plane-5";
        "xy-plane"; "x-edge"; "x-edge"; "x-edge"; "point-edge"; "xy-plane";
        "cross-section-lines";
        "x-worldAxes"; "x-worldAxes"; "x-worldAxes"; "point-worldAxes";
        "x-axes"; "x-axes"; "x-axes"; "point-axes" ].
Proof. reflexivity. Qed.

(** ** Methods never write to the receiver *)

Section Receiver.

Lemma read_only_ret {A : Type} (a : A) : read_only (ret a).
Proof. intro this. reflexivity. Qed.

Lemma read_only_complete {A : Type} (c : completion A) :
  read_only (complete c).
Proof. intro this. reflexivity. Qed.

Lemma read_only_this_cube : read_only this_cube.
Proof. intro this. reflexivity. Qed.

Lemma read_only_this_sceneOptions : read_only this_sceneOptions.
Proof. intro this. reflexivity. Qed.

Lemma read_only_bind {A B : Type} (m : method A) (k : A -> method B) :
  read_only m -> (forall a, read_only (k a)) -> read_only (bind m k).
Proof.
  intros Hm Hk this.
  unfold receiver_after, bind.
  specialize (Hm this). unfold receiver_after in Hm.
  destruct (m this) as [[a | e] this']; simpl in Hm; subst this'.
  - apply Hk.
  - reflexivity.
Qed.

Lemma read_only_x_at arr i : read_only (x_at arr i).
Proof.
  apply read_only_bind; [apply read_only_complete | intro; apply read_only_ret].
Qed.

Lemma read_only_y_at arr i : read_only (y_at arr i).
Proof.
  apply read_only_bind; [apply read_only_complete | intro; apply read_only_ret].
Qed.

Lemma read_only_forEach {A D : Type} (callback : A -> nat -> D -> method D) :
  (forall item index data, read_only (callback item index data)) ->
  forall arr index data, read_only (forEach callback arr index data).
Proof.
  intros Hcb arr.
  induction arr as [| item rest IH]; intros index data; simpl.
  - apply read_only_ret.
  - apply read_only_bind; [apply Hcb | intro; apply IH].
Qed.

(** Running [bind m k] on a read-only [m] runs [k] on the same
    receiver. *)
Lemma result_of_bind {A B : Type} (m : method A) (k : A -> method B) this :
  read_only m ->
  result_of (bind m k) this =
  match result_of m this with
  | Returned a => result_of (k a) this
  | Thrown e => Thrown e
  end.
Proof.
  intro Hm. specialize (Hm this).
  unfold receiver_after, result_of, bind in *.
  destruct (m this) as [[a | e] this']; simpl in *; subst; reflexivity.
Qed.

End Receiver.

Create HintDb receiver.
#[export] Hint Resolve read_only_ret read_only_complete read_only_this_cube
  read_only_this_sceneOptions read_only_x_at read_only_y_at : receiver.

Ltac read_only_steps :=
  repeat first
    [ apply read_only_bind; [| intro]
    | apply read_only_forEach; intros
    | progress auto with receiver
    | match goal with
      | |- read_only (match ?o with _ => _ end) => destruct o
      end ].

Lemma read_only_drawBox : read_only drawBox.
Proof. unfold drawBox. read_only_steps. Qed.

Lemma read_only_drawEdges : read_only drawEdges.
Proof. unfold drawEdges. read_only_steps. Qed.

Lemma read_only_drawWorldAxes : read_only drawWorldAxes.
Proof. unfold drawWorldAxes. read_only_steps. Qed.

Lemma read_only_drawCubeAxes : read_only drawCubeAxes.
Proof. unfold drawCubeAxes. read_only_steps. Qed.

Lemma read_only_drawXYplane : read_only drawXYplane.
Proof. unfold drawXYplane. read_only_steps. Qed.

Lemma read_only_drawCrossSectionLines : read_only drawCrossSectionLines.
Proof. unfold drawCrossSectionLines. read_only_steps. Qed.

#[export] Hint Resolve read_only_drawBox read_only_drawEdges
  read_only_drawWorldAxes read_only_drawCubeAxes read_only_drawXYplane
  read_only_drawCrossSectionLines : receiver.

Lemma read_only_render : read_only render.
Proof. unfold render. read_only_steps. Qed.

(** ** What a well-formed snapshot guarantees *)

Lemma well_formed_lengths c :
  well_formed c = true ->
  8 <= List.length (SceneCube.vertexPoints2d c)
  /\ 6 <= List.length (SceneCube.crossPoints2d c)
  /\ 3 <= List.length (SceneCube.axes2d c)
  /\ 3 <= List.length (SceneCube.worldAxes2d c).
Proof.
  unfold well_formed. intro H.
  repeat (apply andb_prop in H; destruct H as [H ?]).
  repeat split; apply Nat.leb_le; assumption.
Qed.

(** Name the first elements of a list known to be long enough. *)
Ltac expose l H :=
  repeat (destruct l as [| ? l]; [simpl in H; lia |]); clear H.

Ltac open_snapshot this H :=
  let vs := fresh "vs" in
  let cs := fresh "cs" in
  let ax := fresh "ax" in
  let wx := fresh "wx" in
  let opts := fresh "opts" in
  let Hv := fresh "Hv" in
  let Hc := fresh "Hc" in
  let Ha := fresh "Ha" in
  let Hw := fresh "Hw" in
  destruct this as [[vs cs ax wx ? ?] opts];
  apply well_formed_lengths in H; simpl in H;
  destruct H as (Hv & Hc & Ha & Hw);
  expose vs Hv; expose cs Hc; expose ax Ha; expose wx Hw.

Ltac same_point :=
  repeat match goal with
         | H : Some _ = Some _ |- _ => injection H as H; subst
         | H : nth_error _ _ = Some _ |- _ => simpl in H
         end.

Lemma drawBox_returns this :
  well_formed (cube this) = true ->
  exists box, result_of drawBox this = Returned box.
Proof.
  intro H. open_snapshot this H.
  destruct opts as [[edges |] ? ? ? ? ?]; eexists; reflexivity.
Qed.

Lemma drawXYplane_returns this :
  well_formed (cube this) = true ->
  exists plane, result_of drawXYplane this = Returned [plane].
Proof.
  intro H. open_snapshot this H. eexists; reflexivity.
Qed.

Lemma drawEdges_returns this :
  well_formed (cube this) = true ->
  exists edges, result_of drawEdges this = Returned edges.
Proof.
  intro H. open_snapshot this H.
  destruct opts as [? ? ? [style |] ? ?]; eexists; reflexivity.
Qed.

Lemma drawCrossSectionLines_returns this :
  well_formed (cube this) = true ->
  exists cross, result_of drawCrossSectionLines this = Returned [cross].
Proof.
  intro H. open_snapshot this H. eexists; reflexivity.
Qed.

Lemma drawWorldAxes_returns this :
  well_formed (cube this) = true ->
  exists world, result_of drawWorldAxes this = Returned world.
Proof.
  intro H. open_snapshot this H.
  destruct opts as [? ? ? ? [style |] ?]; eexists; reflexivity.
Qed.

Lemma drawCubeAxes_returns this :
  well_formed (cube this) = true ->
  exists axes, result_of drawCubeAxes this = Returned axes.
Proof.
  intro H. open_snapshot this H.
  destruct opts as [? ? ? ? ? [style |]]; eexists; reflexivity.
Qed.

(** [render] is the seven calls in sequence on one and the same
    receiver: when each returns, so does [render], with the results
    spread in call order. *)
Lemma render_spreads this box plane1 edges plane2 cross world axes :
  result_of drawBox this = Returned box ->
  result_of drawXYplane this = Returned plane1 ->
  result_of drawEdges this = Returned edges ->
  result_of drawXYplane this = Returned plane2 ->
  result_of drawCrossSectionLines this = Returned cross ->
  result_of drawWorldAxes this = Returned world ->
  result_of drawCubeAxes this = Returned axes ->
  result_of render this =
  Returned (map Polygon2d box ++ map Polygon2d plane1 ++ edges
              ++ map Polygon2d plane2 ++ map Lines2d cross ++ world ++ axes).
Proof.
  intros Hb Hp1 He Hp2 Hc Hw Ha. unfold render.
  rewrite result_of_bind by auto with receiver. simpl.
  rewrite result_of_bind, Hb by auto with receiver.
  rewrite result_of_bind, Hp1 by auto with receiver.
  rewrite result_of_bind, He by auto with receiver.
  rewrite result_of_bind, Hp2 by auto with receiver.
  rewrite result_of_bind, Hc by auto with receiver.
  rewrite result_of_bind, Hw by auto with receiver.
  rewrite result_of_bind, Ha by auto with receiver.
  reflexivity.
Qed.

(** ** Top-level composition *)

(** C1: on every well-formed snapshot and for all options, each of the
    sub-renderers returns and [render] returns exactly the concatenation
    of the box, XY-plane, edge-axes, XY-plane (a second time),
    cross-section-lines, world-axes and cube-axes outputs, in that order,
    nothing dropped and nothing moved. *)
Theorem render_concatenates this :
  well_formed (cube this) = true ->
  exists box plane edges cross world axes,
    result_of drawBox this = Returned box
    /\ result_of drawXYplane this = Returned plane
    /\ result_of drawEdges this = Returned edges
    /\ result_of drawCrossSectionLines this = Returned cross
    /\ result_of drawWorldAxes this = Returned world
    /\ result_of drawCubeAxes this = Returned axes
    /\ result_of render this =
       Returned (map Polygon2d box ++ map Polygon2d plane ++ edges
                   ++ map Polygon2d plane ++ map Lines2d cross
                   ++ world ++ axes).
Proof.
  intro H.
  destruct (drawBox_returns this H) as [box Hb].
  destruct (drawXYplane_returns this H) as [plane Hp].
  destruct (drawEdges_returns this H) as [edges He].
  destruct (drawCrossSectionLines_returns this H) as [cross Hc].
  destruct (drawWorldAxes_returns this H) as [world Hw].
  destruct (drawCubeAxes_returns this H) as [axes Ha].
  exists box, [plane], edges, [cross], world, axes.
  repeat split; try assumption.
  now apply render_spreads.
Qed.

Lemma render_concatenates_witness :
  well_formed Sample.the_cube = true
  /\ exists box plane edges cross world axes,
       result_of drawBox (new Sample.the_cube Sample.everything) = Returned box
       /\ result_of drawXYplane (new Sample.the_cube Sample.everything) = Returned plane
       /\ result_of drawEdges (new Sample.the_cube Sample.everything) = Returned edges
       /\ result_of drawCrossSectionLines (new Sample.the_cube Sample.everything) = Returned cross
       /\ result_of drawWorldAxes (new Sample.the_cube Sample.everything) = Returned world
       /\ result_of drawCubeAxes (new Sample.the_cube Sample.everything) = Returned axes
       /\ result_of render (new Sample.the_cube Sample.everything) =
          Returned (map Polygon2d box ++ map Polygon2d plane ++ edges
                      ++ map Polygon2d plane ++ map Lines2d cross
                      ++ world ++ axes).
Proof.
  split; [reflexivity |].
  apply (render_concatenates (new Sample.the_cube Sample.everything)).
  reflexivity.
Defined.

(** C2: on every well-formed snapshot, when the sceneEdges, edgeAxes,
    worldAxes and cubeAxes configs are all absent, [render] returns
    exactly three primitives: the XY-plane polygon, the very same polygon
    again, and the cross-section line bundle. *)
Theorem render_without_features this :
  well_formed (cube this) = true ->
  SceneOptions.sceneEdges (sceneOptions this) = None ->
  SceneOptions.edgeAxes (sceneOptions this) = None ->
  SceneOptions.worldAxes (sceneOptions this) = None ->
  SceneOptions.cubeAxes (sceneOptions this) = None ->
  exists plane cross,
    result_of drawXYplane this = Returned [plane]
    /\ Polygon2dSpecs.id plane = "xy-plane"
    /\ result_of drawCrossSectionLines this = Returned [cross]
    /\ Lines2dSpecs.id cross = "cross-section-lines"
    /\ result_of render this =
       Returned [Polygon2d plane; Polygon2d plane; Lines2d cross].
Proof.
  intros H Hse Hea Hwa Hca.
  open_snapshot this H.
  destruct opts as [se xy cl ea wa ca]. simpl in Hse, Hea, Hwa, Hca. subst.
  do 2 eexists. repeat split; reflexivity.
Qed.

Lemma render_without_features_witness :
  exists plane cross,
    result_of drawXYplane (new Sample.the_cube Sample.nothing) = Returned [plane]
    /\ Polygon2dSpecs.id plane = "xy-plane"
    /\ result_of drawCrossSectionLines (new Sample.the_cube Sample.nothing)
       = Returned [cross]
    /\ Lines2dSpecs.id cross = "cross-section-lines"
    /\ result_of render (new Sample.the_cube Sample.nothing) =
       Returned [Polygon2d plane; Polygon2d plane; Lines2d cross].
Proof.
  apply (render_without_features (new Sample.the_cube Sample.nothing));
    reflexivity.
Defined.

(** ** Cross-section lines *)

(** C5: on every well-formed snapshot and whatever the options, the
    cross-section renderer returns exactly one line bundle of exactly
    eight segments: cross-points 0 to 3, 1 to 2, 1 to 4, 3 to 5, then
    vertices 6 to 4, 4 to 5, 5 to 7 and 7 to 6, coloured #079992 with
    opacity 0.5, size 1 and tag cross-section-lines. *)
Theorem drawCrossSectionLines_segments this :
  well_formed (cube this) = true ->
  exists p0 p1 p2 p3 p4 p5 t4 t5 t6 t7,
    let p := SceneCube.crossPoints2d (cube this) in
    let t := SceneCube.vertexPoints2d (cube this) in
    nth_error p 0 = Some p0 /\ nth_error p 1 = Some p1
    /\ nth_error p 2 = Some p2 /\ nth_error p 3 = Some p3
    /\ nth_error p 4 = Some p4 /\ nth_error p 5 = Some p5
    /\ nth_error t 4 = Some t4 /\ nth_error t 5 = Some t5
    /\ nth_error t 6 = Some t6 /\ nth_error t 7 = Some t7
    /\ result_of drawCrossSectionLines this =
       Returned
         [ {| Lines2dSpecs.x0 :=
                [Vector.x p0; Vector.x p1; Vector.x p1; Vector.x p3;
                 Vector.x t6; Vector.x t4; Vector.x t5; Vector.x t7];
              Lines2dSpecs.y0 :=
                [Vector.y p0; Vector.y p1; Vector.y p1; Vector.y p3;
                 Vector.y t6; Vector.y t4; Vector.y t5; Vector.y t7];
              Lines2dSpecs.x1 :=
                [Vector.x p3; Vector.x p2; Vector.x p4; Vector.x p5;
                 Vector.x t4; Vector.x t5; Vector.x t7; Vector.x t6];
              Lines2dSpecs.y1 :=
                [Vector.y p3; Vector.y p2; Vector.y p4; Vector.y p5;
                 Vector.y t4; Vector.y t5; Vector.y t7; Vector.y t6];
              Lines2dSpecs.color := "#079992";
              Lines2dSpecs.opacity := 0.5%float;
              Lines2dSpecs.size := 1%float;
              Lines2dSpecs.type := lines;
              Lines2dSpecs.id := "cross-section-lines" |} ].
Proof.
  intro H. open_snapshot this H.
  do 10 eexists. simpl. repeat split; reflexivity.
Qed.

Lemma drawCrossSectionLines_segments_witness :
  exists p0 p1 p2 p3 p4 p5 t4 t5 t6 t7,
    let p := Sample.crosses in
    let t := Sample.vertices in
    nth_error p 0 = Some p0 /\ nth_error p 1 = Some p1
    /\ nth_error p 2 = Some p2 /\ nth_error p 3 = Some p3
    /\ nth_error p 4 = Some p4 /\ nth_error p 5 = Some p5
    /\ nth_error t 4 = Some t4 /\ nth_error t 5 = Some t5
    /\ nth_error t 6 = Some t6 /\ nth_error t 7 = Some t7
    /\ result_of drawCrossSectionLines (new Sample.the_cube Sample.everything) =
       Returned
         [ {| Lines2dSpecs.x0 :=
                [Vector.x p0; Vector.x p1; Vector.x p1; Vector.x p3;
                 Vector.x t6; Vector.x t4; Vector.x t5; Vector.x t7];
              Lines2dSpecs.y0 :=
                [Vector.y p0; Vector.y p1; Vector.y p1; Vector.y p3;
                 Vector.y t6; Vector.y t4; Vector.y t5; Vector.y t7];
              Lines2dSpecs.x1 :=
                [Vector.x p3; Vector.x p2; Vector.x p4; Vector.x p5;
                 Vector.x t4; Vector.x t5; Vector.x t7; Vector.x t6];
              Lines2dSpecs.y1 :=
                [Vector.y p3; Vector.y p2; Vector.y p4; Vector.y p5;
                 Vector.y t4; Vector.y t5; Vector.y t7; Vector.y t6];
              Lines2dSpecs.color := "#079992";
              Lines2dSpecs.opacity := 0.5%float;
              Lines2dSpecs.size := 1%float;
              Lines2dSpecs.type := lines;
              Lines2dSpecs.id := "cross-section-lines" |} ].
Proof.
  apply (drawCrossSectionLines_segments (new Sample.the_cube Sample.everything)).
  reflexivity.
Defined.

(** ** The face table *)

(** C6: the face table has exactly six entries, each of four pairwise
    distinct vertex indices within 0..7, and every index 0..7 occurs in
    exactly three entries. *)
Theorem POINT_FACE_SET_is_a_cube :
  List.length POINT_FACE_SET = 6
  /\ Forall (fun face =>
               List.length face = 4
               /\ NoDup face
               /\ Forall (fun v => v <= 7) face) POINT_FACE_SET
  /\ Forall (fun v => faces_with v = 3) (seq 0 8).
Proof.
  split; [reflexivity |]. split.
  - unfold POINT_FACE_SET.
    repeat (apply Forall_cons || apply Forall_nil);
      (split; [reflexivity |]; split;
       [ repeat (apply NoDup_cons; [simpl; intuition discriminate |]);
         apply NoDup_nil
       | repeat (apply Forall_cons; [lia |]); apply Forall_nil ]).
  - simpl seq.
    repeat (apply Forall_cons; [reflexivity |]). apply Forall_nil.
Qed.

(** ** The shared axis routine *)

(** C3: for every origin, three direction points, name and axes bundle
    [drawAxes] returns exactly four primitives: three one-segment line
    bundles from the origin to the x, y and z direction point, in the x, y
    and z colour, all three tagged x-<name>, then one point marker at the
    origin tagged point-<name> with opacity 1.  With edgeOpacity omitted
    the lines have opacity 1, with lineSize omitted size 1, and with
    intersectionPointSize omitted the marker has size 3. *)
Theorem drawAxes_four_primitives p0 vx vy vz name (o : AxesOptions.t) :
  let line (v : Vector.t) (color : string) :=
    {| Lines2dSpecs.x0 := [Vector.x p0];
       Lines2dSpecs.y0 := [Vector.y p0];
       Lines2dSpecs.x1 := [Vector.x v];
       Lines2dSpecs.y1 := [Vector.y v];
       Lines2dSpecs.color := color;
       Lines2dSpecs.opacity := or_else (AxesOptions.edgeOpacity o) 1%float;
       Lines2dSpecs.size := or_else (AxesOptions.lineSize o) 1%float;
       Lines2dSpecs.type := lines;
       Lines2dSpecs.id := ("x-" ++ name)%string |} in
  let marker :=
    {| Points2dSpecs.x := [Vector.x p0];
       Points2dSpecs.y := [Vector.y p0];
       Points2dSpecs.color := AxesOptions.intersectionPointColor o;
       Points2dSpecs.opacity := 1%float;
       Points2dSpecs.size := or_else (AxesOptions.intersectionPointSize o) 3%float;
       Points2dSpecs.type := points;
       Points2dSpecs.id := ("point-" ++ name)%string |} in
  drawAxes p0 vx vy vz name o =
    [ Lines2d (line vx (AxesOptions.xColor o));
      Lines2d (line vy (AxesOptions.yColor o));
      Lines2d (line vz (AxesOptions.zColor o));
      Points2d marker ]
  /\ (AxesOptions.edgeOpacity o = None ->
      forall l, In (Lines2d l) (drawAxes p0 vx vy vz name o) ->
                Lines2dSpecs.opacity l = 1%float)
  /\ (AxesOptions.lineSize o = None ->
      forall l, In (Lines2d l) (drawAxes p0 vx vy vz name o) ->
                Lines2dSpecs.size l = 1%float)
  /\ (AxesOptions.intersectionPointSize o = None ->
      forall m, In (Points2d m) (drawAxes p0 vx vy vz name o) ->
                Points2dSpecs.size m = 3%float).
Proof.
  intros line marker. split; [reflexivity |].
  unfold drawAxes, drawAxis.
  repeat split; intros Hnone s Hin; rewrite Hnone in Hin; simpl in Hin;
    repeat (destruct Hin as [Hin | Hin];
            [ try discriminate Hin; injection Hin as <-; reflexivity |]);
    contradiction.
Qed.

Lemma drawAxes_four_primitives_witness :
  let o := Sample.axes_style in
  let p0 := Sample.pt 0 0 in
  AxesOptions.intersectionPointSize o = None
  /\ drawAxes p0 (Sample.pt 1 0) (Sample.pt 0 1) (Sample.pt 0 0.5) "t" o =
     [ Lines2d (Lines2dSpecs.mk [0%float] [0%float] [1%float] [0%float]
                  "red" 0.5%float 2%float lines "x-t");
       Lines2d (Lines2dSpecs.mk [0%float] [0%float] [0%float] [1%float]
                  "green" 0.5%float 2%float lines "x-t");
       Lines2d (Lines2dSpecs.mk [0%float] [0%float] [0%float] [0.5%float]
                  "blue" 0.5%float 2%float lines "x-t");
       Points2d (Points2dSpecs.mk [0%float] [0%float]
                   "white" 1%float 3%float points "point-t") ]
  /\ forall m,
       In (Points2d m)
          (drawAxes p0 (Sample.pt 1 0) (Sample.pt 0 1) (Sample.pt 0 0.5) "t" o) ->
       Points2dSpecs.size m = 3%float.
Proof.
  intros o p0.
  destruct (drawAxes_four_primitives p0 (Sample.pt 1 0) (Sample.pt 0 1)
              (Sample.pt 0 0.5) "t" o) as (Hall & _ & _ & Hmarker).
  split; [reflexivity |]. split; [exact Hall |].
  apply Hmarker. reflexivity.
Defined.

(** ** The box renderer *)

Lemma or_else_configured (v : option number) (d n : number) :
  (v = None /\ n = d) \/ (v = Some n /\ toBoolean n = true) ->
  or_else v d = n.
Proof.
  intros [[-> ->] | [-> Ht]]; simpl; [| rewrite Ht]; reflexivity.
Qed.

Lemma or_else_zero (d : number) : or_else (Some 0%float) d = d.
Proof. reflexivity. Qed.

(** C4 as amended: when sceneEdges is absent [drawBox] returns the empty
    sequence.  When it is present with colour [color] and an opacity that
    is either omitted or a number other than zero and NaN, then on a
    well-formed snapshot [drawBox] returns exactly six polygons, one per
    face of the table in table order; the one for face [index] takes its
    x and y sequences from the four vertex points the face lists, in
    winding order, and has borderColor [color], borderOpacity the
    configured opacity (1 when omitted), borderSize 1, fillOpacity 0 and
    tag plane-<index>. *)
Theorem drawBox_outlines this :
  (SceneOptions.sceneEdges (sceneOptions this) = None ->
   result_of drawBox this = Returned [])
  /\ (forall edges border,
        SceneOptions.sceneEdges (sceneOptions this) = Some edges ->
        (EdgeOptions.opacity edges = None /\ border = 1%float)
        \/ (EdgeOptions.opacity edges = Some border /\ toBoolean border = true) ->
        well_formed (cube this) = true ->
        exists planes,
          result_of drawBox this = Returned planes
          /\ List.length planes = 6
          /\ forall index a b c d,
               nth_error POINT_FACE_SET index = Some [a; b; c; d] ->
               exists pa pb pc pd,
                 let p := SceneCube.vertexPoints2d (cube this) in
                 nth_error p a = Some pa /\ nth_error p b = Some pb
                 /\ nth_error p c = Some pc /\ nth_error p d = Some pd
                 /\ nth_error planes index =
                    Some {| Polygon2dSpecs.x :=
                              [Vector.x pa; Vector.x pb; Vector.x pc; Vector.x pd];
                            Polygon2dSpecs.y :=
                              [Vector.y pa; Vector.y pb; Vector.y pc; Vector.y pd];
                            Polygon2dSpecs.borderColor := EdgeOptions.color edges;
                            Polygon2dSpecs.borderOpacity := border;
                            Polygon2dSpecs.borderSize := 1%float;
                            Polygon2dSpecs.fillColor := EdgeOptions.color edges;
                            Polygon2dSpecs.fillOpacity := 0%float;
                            Polygon2dSpecs.type := polygon;
                            Polygon2dSpecs.id :=
                              ("plane-" ++ index_text index)%string |}).
Proof.
  split.
  - destruct this as [c [se ? ? ? ? ?]]. simpl. intros ->. reflexivity.
  - intros edges border Hse Hop H.
    apply or_else_configured with (d := 1%float) in Hop.
    open_snapshot this H.
    destruct opts as [se ? ? ? ? ?]. simpl in Hse. subst se.
    eexists. split; [| split].
    + unfold result_of, drawBox. cbn -[or_else]. rewrite Hop. reflexivity.
    + reflexivity.
    + intros index a b c d Hface.
      do 6 (destruct index as [| index];
            [ injection Hface as <- <- <- <-;
              do 4 eexists; simpl; repeat split; reflexivity |]).
      destruct index; discriminate Hface.
Qed.

Lemma drawBox_outlines_witness :
  result_of drawBox (new Sample.the_cube Sample.nothing) = Returned []
  /\ toBoolean 0.75%float = true
  /\ exists planes,
       result_of drawBox (new Sample.the_cube Sample.everything) = Returned planes
       /\ List.length planes = 6
       /\ forall index a b c d,
            nth_error POINT_FACE_SET index = Some [a; b; c; d] ->
            exists pa pb pc pd,
              nth_error Sample.vertices a = Some pa
              /\ nth_error Sample.vertices b = Some pb
              /\ nth_error Sample.vertices c = Some pc
              /\ nth_error Sample.vertices d = Some pd
              /\ nth_error planes index =
                 Some {| Polygon2dSpecs.x :=
                           [Vector.x pa; Vector.x pb; Vector.x pc; Vector.x pd];
                         Polygon2dSpecs.y :=
                           [Vector.y pa; Vector.y pb; Vector.y pc; Vector.y pd];
                         Polygon2dSpecs.borderColor := "#fff";
                         Polygon2dSpecs.borderOpacity := 0.75%float;
                         Polygon2dSpecs.borderSize := 1%float;
                         Polygon2dSpecs.fillColor := "#fff";
                         Polygon2dSpecs.fillOpacity := 0%float;
                         Polygon2dSpecs.type := polygon;
                         Polygon2dSpecs.id :=
                           ("plane-" ++ index_text index)%string |}.
Proof.
  split; [| split; [reflexivity |]].
  - apply (proj1 (drawBox_outlines (new Sample.the_cube Sample.nothing))).
    reflexivity.
  - apply (proj2 (drawBox_outlines (new Sample.the_cube Sample.everything))
             (EdgeOptions.mk "#fff" (Some 0.75%float)) 0.75%float).
    + reflexivity.
    + right. split; reflexivity.
    + reflexivity.
Defined.

(** C4 as stated fails for a configured opacity of zero: the six
    outlines come out with borderOpacity 1, not the configured 0. *)
Lemma drawBox_zero_opacity_counterexample :
  SceneOptions.sceneEdges Sample.transparent_edges
  = Some (EdgeOptions.mk "#fff" (Some 0%float))
  /\ well_formed Sample.the_cube = true
  /\ exists planes,
       result_of drawBox (new Sample.the_cube Sample.transparent_edges)
       = Returned planes
       /\ List.length planes = 6
       /\ Forall (fun plane =>
                    Polygon2dSpecs.borderOpacity plane = 1%float
                    /\ Polygon2dSpecs.borderOpacity plane <> 0%float) planes.
Proof.
  split; [reflexivity |]. split; [reflexivity |].
  eexists. split; [reflexivity |]. split; [reflexivity |].
  repeat (apply Forall_cons; [split; [reflexivity | discriminate] |]).
  apply Forall_nil.
Qed.

(** ** Which sub-renderers an absent config switches off *)

(** C7 as amended: the box, edge-axes, world-axes and cube-axes
    renderers return the empty sequence when their own config
    (sceneEdges, edgeAxes, worldAxes, cubeAxes) is absent, and on a
    well-formed snapshot a non-empty sequence when it is present: for
    these four, absence of the config is the sole disable switch. *)
Theorem absent_config_disables this :
  (SceneOptions.sceneEdges (sceneOptions this) = None ->
   result_of drawBox this = Returned [])
  /\ (SceneOptions.edgeAxes (sceneOptions this) = None ->
      result_of drawEdges this = Returned [])
  /\ (SceneOptions.worldAxes (sceneOptions this) = None ->
      result_of drawWorldAxes this = Returned [])
  /\ (SceneOptions.cubeAxes (sceneOptions this) = None ->
      result_of drawCubeAxes this = Returned [])
  /\ (well_formed (cube this) = true ->
      (SceneOptions.sceneEdges (sceneOptions this) <> None ->
       exists out, result_of drawBox this = Returned out /\ out <> [])
      /\ (SceneOptions.edgeAxes (sceneOptions this) <> None ->
          exists out, result_of drawEdges this = Returned out /\ out <> [])
      /\ (SceneOptions.worldAxes (sceneOptions this) <> None ->
          exists out, result_of drawWorldAxes this = Returned out /\ out <> [])
      /\ (SceneOptions.cubeAxes (sceneOptions this) <> None ->
          exists out, result_of drawCubeAxes this = Returned out /\ out <> [])).
Proof.
  repeat apply conj.
  1-4: destruct this as [c [se xy cl ea wa ca]]; simpl; intros ->; reflexivity.
  intro H. open_snapshot this H.
  destruct opts as [se xy cl ea wa ca]. simpl.
  repeat apply conj; intro Hpresent.
  - destruct se; [| contradiction]. eexists. split; [reflexivity | discriminate].
  - destruct ea; [| contradiction]. eexists. split; [reflexivity | discriminate].
  - destruct wa; [| contradiction]. eexists. split; [reflexivity | discriminate].
  - destruct ca; [| contradiction]. eexists. split; [reflexivity | discriminate].
Qed.

Lemma absent_config_disables_witness :
  (result_of drawBox (new Sample.the_cube Sample.nothing) = Returned []
   /\ result_of drawEdges (new Sample.the_cube Sample.nothing) = Returned []
   /\ result_of drawWorldAxes (new Sample.the_cube Sample.nothing) = Returned []
   /\ result_of drawCubeAxes (new Sample.the_cube Sample.nothing) = Returned [])
  /\ (exists out, result_of drawBox (new Sample.the_cube Sample.everything)
                  = Returned out /\ out <> [])
  /\ (exists out, result_of drawEdges (new Sample.the_cube Sample.everything)
                  = Returned out /\ out <> [])
  /\ (exists out, result_of drawWorldAxes (new Sample.the_cube Sample.everything)
                  = Returned out /\ out <> [])
  /\ (exists out, result_of drawCubeAxes (new Sample.the_cube Sample.everything)
                  = Returned out /\ out <> []).
Proof.
  destruct (absent_config_disables (new Sample.the_cube Sample.nothing))
    as (Hb & He & Hw & Hc & _).
  destruct (absent_config_disables (new Sample.the_cube Sample.everything))
    as (_ & _ & _ & _ & Hon).
  destruct (Hon eq_refl) as (Pb & Pe & Pw & Pc).
  split.
  - repeat apply conj; [apply Hb | apply He | apply Hw | apply Hc]; reflexivity.
  - repeat apply conj; [apply Pb | apply Pe | apply Pw | apply Pc];
      discriminate.
Defined.

(** C7 as stated fails for the XY-plane and the cross-section lines: with
    xyPlane and crossLines absent, each still returns one primitive. *)
Lemma absent_config_counterexample :
  SceneOptions.xyPlane Sample.nothing = None
  /\ SceneOptions.crossLines Sample.nothing = None
  /\ well_formed Sample.the_cube = true
  /\ (exists plane,
        result_of drawXYplane (new Sample.the_cube Sample.nothing)
        = Returned [plane])
  /\ result_of drawXYplane (new Sample.the_cube Sample.nothing) <> Returned []
  /\ (exists cross,
        result_of drawCrossSectionLines (new Sample.the_cube Sample.nothing)
        = Returned [cross])
  /\ result_of drawCrossSectionLines (new Sample.the_cube Sample.nothing)
     <> Returned [].
Proof.
  repeat apply conj; try reflexivity; try discriminate;
    eexists; reflexivity.
Qed.

(** ** Falsy styling values *)

(** C10: an explicit zero is replaced by the default exactly as an
    omitted value is.  For every axes bundle [drawAxes] emits its three
    axis line bundles and its point marker, and with edgeOpacity 0 each of
    the three lines has opacity 1, with lineSize 0 each has size 1, and
    with intersectionPointSize 0 the marker has size 3; for every
    sceneEdges config with opacity 0, on a well-formed snapshot, [drawBox]
    emits six face polygons and all of them have borderOpacity 1. *)
Theorem zero_falls_back_to_default :
  (forall p0 vx vy vz name o,
      AxesOptions.edgeOpacity o = Some 0%float ->
      exists lx ly lz m,
        drawAxes p0 vx vy vz name o
        = [Lines2d lx; Lines2d ly; Lines2d lz; Points2d m]
        /\ Lines2dSpecs.opacity lx = 1%float
        /\ Lines2dSpecs.opacity ly = 1%float
        /\ Lines2dSpecs.opacity lz = 1%float)
  /\ (forall p0 vx vy vz name o,
         AxesOptions.lineSize o = Some 0%float ->
         exists lx ly lz m,
           drawAxes p0 vx vy vz name o
           = [Lines2d lx; Lines2d ly; Lines2d lz; Points2d m]
           /\ Lines2dSpecs.size lx = 1%float
           /\ Lines2dSpecs.size ly = 1%float
           /\ Lines2dSpecs.size lz = 1%float)
  /\ (forall p0 vx vy vz name o,
         AxesOptions.intersectionPointSize o = Some 0%float ->
         exists lx ly lz m,
           drawAxes p0 vx vy vz name o
           = [Lines2d lx; Lines2d ly; Lines2d lz; Points2d m]
           /\ Points2dSpecs.size m = 3%float)
  /\ (forall this edges,
         SceneOptions.sceneEdges (sceneOptions this) = Some edges ->
         EdgeOptions.opacity edges = Some 0%float ->
         well_formed (cube this) = true ->
         exists planes,
           result_of drawBox this = Returned planes
           /\ List.length planes = 6
           /\ Forall (fun plane => Polygon2dSpecs.borderOpacity plane = 1%float)
                     planes).
Proof.
  repeat apply conj.
  1-3: intros p0 vx vy vz name o Hzero;
    unfold drawAxes, drawAxis; rewrite Hzero; rewrite or_else_zero;
    do 4 eexists; repeat apply conj; reflexivity.
  intros this edges Hse Hzero H.
  open_snapshot this H.
  destruct opts as [se ? ? ? ? ?]. simpl in Hse. subst se.
  destruct edges as [color opacity]. simpl in Hzero. subst opacity.
  eexists. split; [reflexivity |]. split; [reflexivity |].
  repeat (apply Forall_cons; [reflexivity |]). apply Forall_nil.
Qed.

Lemma zero_falls_back_to_default_witness :
  let out :=
    drawAxes (Sample.pt 2 1) (Sample.pt 3 1) (Sample.pt 2 2)
      (Sample.pt 2.5 1.5) "axes" Sample.zero_style in
  (exists lx ly lz m,
      out = [Lines2d lx; Lines2d ly; Lines2d lz; Points2d m]
      /\ Lines2dSpecs.opacity lx = 1%float
      /\ Lines2dSpecs.opacity ly = 1%float
      /\ Lines2dSpecs.opacity lz = 1%float)
  /\ (exists lx ly lz m,
         out = [Lines2d lx; Lines2d ly; Lines2d lz; Points2d m]
         /\ Lines2dSpecs.size lx = 1%float
         /\ Lines2dSpecs.size ly = 1%float
         /\ Lines2dSpecs.size lz = 1%float)
  /\ (exists lx ly lz m,
         out = [Lines2d lx; Lines2d ly; Lines2d lz; Points2d m]
         /\ Points2dSpecs.size m = 3%float)
  /\ exists planes,
       result_of drawBox (new Sample.the_cube Sample.transparent_edges)
       = Returned planes
       /\ List.length planes = 6
       /\ Forall (fun plane => Polygon2dSpecs.borderOpacity plane = 1%float)
                 planes.
Proof.
  intro out.
  destruct zero_falls_back_to_default as (Hopacity & Hsize & Hmarker & Hbox).
  repeat apply conj.
  - apply (Hopacity _ _ _ _ _ Sample.zero_style eq_refl).
  - apply (Hsize _ _ _ _ _ Sample.zero_style eq_refl).
  - apply (Hmarker _ _ _ _ _ Sample.zero_style eq_refl).
  - apply (Hbox (new Sample.the_cube Sample.transparent_edges)
             (EdgeOptions.mk "#fff" (Some 0%float))); reflexivity.
Defined.

(** ** Calls that agree on their result *)

Section Agreement.

Variables t1 t2 : SceneCubeRenderer.

Lemma agree_bind {A B : Type} (m : method A) (k : A -> method B) :
  read_only m ->
  result_of m t1 = result_of m t2 ->
  (forall a, result_of (k a) t1 = result_of (k a) t2) ->
  result_of (bind m k) t1 = result_of (bind m k) t2.
Proof.
  intros Hro Hm Hk.
  rewrite !result_of_bind by assumption.
  rewrite Hm. destruct (result_of m t2); [apply Hk | reflexivity].
Qed.

Lemma agree_x_at arr i : result_of (x_at arr i) t1 = result_of (x_at arr i) t2.
Proof.
  unfold x_at, result_of, bind, complete. destruct (element arr i); reflexivity.
Qed.

Lemma agree_y_at arr i : result_of (y_at arr i) t1 = result_of (y_at arr i) t2.
Proof.
  unfold y_at, result_of, bind, complete. destruct (element arr i); reflexivity.
Qed.

Lemma agree_forEach {A D : Type} (callback : A -> nat -> D -> method D) :
  (forall item index data, read_only (callback item index data)) ->
  (forall item index data,
      result_of (callback item index data) t1
      = result_of (callback item index data) t2) ->
  forall arr index data,
    result_of (forEach callback arr index data) t1
    = result_of (forEach callback arr index data) t2.
Proof.
  intros Hro Hcb arr.
  induction arr as [| item rest IH]; intros index data; simpl.
  - reflexivity.
  - apply agree_bind; [apply Hro | apply Hcb | intro; apply IH].
Qed.

End Agreement.

(** Reading a field of the receiver and going on. *)
Lemma result_of_this_sceneOptions {B : Type}
    (k : SceneOptions.t -> method B) this :
  result_of (bind this_sceneOptions k) this
  = result_of (k (sceneOptions this)) this.
Proof. reflexivity. Qed.

Lemma result_of_this_cube {B : Type} (k : SceneCube.t -> method B) this :
  result_of (bind this_cube k) this = result_of (k (cube this)) this.
Proof. reflexivity. Qed.

Ltac read_fields :=
  rewrite ?result_of_this_sceneOptions, ?result_of_this_cube; simpl.

Ltac agree_steps :=
  repeat first
    [ reflexivity
    | apply agree_x_at
    | apply agree_y_at
    | apply agree_bind; [solve [read_only_steps] | | intro]
    | apply agree_forEach; [intros; solve [read_only_steps] | intros]
    | match goal with
      | |- result_of (match ?o with _ => _ end) _ = _ => destruct o
      end ].

Section SameFeatures.

(** Two receivers on one snapshot whose options agree on the four
    configs the sub-renderers read. *)
Variable c : SceneCube.t.
Variables o1 o2 : SceneOptions.t.
Hypothesis same_sceneEdges :
  SceneOptions.sceneEdges o1 = SceneOptions.sceneEdges o2.
Hypothesis same_edgeAxes :
  SceneOptions.edgeAxes o1 = SceneOptions.edgeAxes o2.
Hypothesis same_worldAxes :
  SceneOptions.worldAxes o1 = SceneOptions.worldAxes o2.
Hypothesis same_cubeAxes :
  SceneOptions.cubeAxes o1 = SceneOptions.cubeAxes o2.

Lemma agree_drawBox :
  result_of drawBox (new c o1) = result_of drawBox (new c o2).
Proof.
  unfold drawBox. read_fields. rewrite same_sceneEdges.
  destruct (SceneOptions.sceneEdges o2); [| reflexivity].
  read_fields. agree_steps.
Qed.

Lemma agree_drawEdges :
  result_of drawEdges (new c o1) = result_of drawEdges (new c o2).
Proof.
  unfold drawEdges. read_fields. rewrite same_edgeAxes.
  destruct (SceneOptions.edgeAxes o2); [| reflexivity].
  read_fields. agree_steps.
Qed.

Lemma agree_drawWorldAxes :
  result_of drawWorldAxes (new c o1) = result_of drawWorldAxes (new c o2).
Proof.
  unfold drawWorldAxes. read_fields. rewrite same_worldAxes.
  destruct (SceneOptions.worldAxes o2); [| reflexivity].
  read_fields. agree_steps.
Qed.

Lemma agree_drawCubeAxes :
  result_of drawCubeAxes (new c o1) = result_of drawCubeAxes (new c o2).
Proof.
  unfold drawCubeAxes. read_fields. rewrite same_cubeAxes.
  destruct (SceneOptions.cubeAxes o2); [| reflexivity].
  read_fields. agree_steps.
Qed.

Lemma agree_drawXYplane :
  result_of drawXYplane (new c o1) = result_of drawXYplane (new c o2).
Proof. unfold drawXYplane. read_fields. agree_steps. Qed.

Lemma agree_drawCrossSectionLines :
  result_of drawCrossSectionLines (new c o1)
  = result_of drawCrossSectionLines (new c o2).
Proof. unfold drawCrossSectionLines. read_fields. agree_steps. Qed.

Lemma agree_render :
  result_of render (new c o1) = result_of render (new c o2).
Proof.
  unfold render. read_fields.
  apply agree_bind; [auto with receiver | apply agree_drawBox | intro].
  apply agree_bind; [auto with receiver | apply agree_drawXYplane | intro].
  apply agree_bind; [auto with receiver | apply agree_drawEdges | intro].
  apply agree_bind; [auto with receiver | apply agree_drawXYplane | intro].
  apply agree_bind;
    [auto with receiver | apply agree_drawCrossSectionLines | intro].
  apply agree_bind; [auto with receiver | apply agree_drawWorldAxes | intro].
  apply agree_bind; [auto with receiver | apply agree_drawCubeAxes | intro].
  reflexivity.
Qed.

End SameFeatures.

(** ** Options the renderer never reads *)

(** C9: the result of [render] does not depend on the xyPlane and
    crossLines fields.  On any snapshot, two options objects that agree on
    sceneEdges, edgeAxes, worldAxes and cubeAxes, and so differ at most in
    xyPlane and crossLines, give equal results. *)
Theorem render_ignores_xyPlane_and_crossLines c o1 o2 :
  SceneOptions.sceneEdges o1 = SceneOptions.sceneEdges o2 ->
  SceneOptions.edgeAxes o1 = SceneOptions.edgeAxes o2 ->
  SceneOptions.worldAxes o1 = SceneOptions.worldAxes o2 ->
  SceneOptions.cubeAxes o1 = SceneOptions.cubeAxes o2 ->
  result_of render (new c o1) = result_of render (new c o2).
Proof. apply agree_render. Qed.

Lemma render_ignores_xyPlane_and_crossLines_witness :
  SceneOptions.xyPlane Sample.everything <> SceneOptions.xyPlane Sample.unplaned
  /\ SceneOptions.crossLines Sample.everything
     <> SceneOptions.crossLines Sample.unplaned
  /\ result_of render (new Sample.the_cube Sample.everything)
     = result_of render (new Sample.the_cube Sample.unplaned).
Proof.
  split; [discriminate |]. split; [discriminate |].
  apply (render_ignores_xyPlane_and_crossLines
           Sample.the_cube Sample.everything Sample.unplaned);
    reflexivity.
Defined.

(** ** Rendering again *)

(** C8: calling [render] a second time on the same renderer, as the first
    call left it, gives a structurally equal result and so the same tags
    in the same order; on a well-formed snapshot both calls return, and
    return the same list. *)
Theorem render_twice this :
  let first := result_of render this in
  let second := result_of render (receiver_after render this) in
  second = first
  /\ tags second = tags first
  /\ (well_formed (cube this) = true ->
      exists out1 out2,
        first = Returned out1 /\ second = Returned out2
        /\ out2 = out1 /\ map tag out2 = map tag out1).
Proof.
  intros first second.
  assert (Hsame : second = first).
  { unfold second, first. rewrite read_only_render. reflexivity. }
  split; [exact Hsame |]. split; [rewrite Hsame; reflexivity |].
  intro H.
  destruct (drawBox_returns this H) as [box Hb].
  destruct (drawXYplane_returns this H) as [plane Hp].
  destruct (drawEdges_returns this H) as [edges He].
  destruct (drawCrossSectionLines_returns this H) as [cross Hc].
  destruct (drawWorldAxes_returns this H) as [world Hw].
  destruct (drawCubeAxes_returns this H) as [axes Ha].
  pose proof (render_spreads this _ _ _ _ _ _ _ Hb Hp He Hp Hc Hw Ha) as Hr.
  fold first in Hr.
  do 2 eexists. split; [exact Hr |]. split; [rewrite Hsame; exact Hr |].
  split; reflexivity.
Qed.

Lemma render_twice_witness :
  let this := new Sample.the_cube Sample.everything in
  exists out1 out2,
    result_of render this = Returned out1
    /\ result_of render (receiver_after render this) = Returned out2
    /\ out2 = out1 /\ map tag out2 = map tag out1.
Proof.
  intro this.
  apply (proj2 (proj2 (render_twice this))).
  reflexivity.
Defined.

(** ** When the sub-renderers throw *)

(** Split on the length of a list: every length below the bound gives an
    explicit list for [short] to deal with, what is left has the first
    elements named. *)
Ltac by_length8 l short :=
  do 8 (destruct l as [| ? l]; [short |]).
Ltac by_length6 l short :=
  do 6 (destruct l as [| ? l]; [short |]).
Ltac by_length3 l short :=
  do 3 (destruct l as [| ? l]; [short |]).

(** X1: The XY-plane renderer reads vertices 4, 5, 7 and 6: with fewer than
    eight vertices it throws, otherwise it returns the single filled
    polygon through these four in that order, whatever the options. *)
Theorem drawXYplane_cases this :
  let p := SceneCube.vertexPoints2d (cube this) in
  (List.length p < 8 -> result_of drawXYplane this = Thrown TypeError)
  /\ (8 <= List.length p ->
      exists p4 p5 p6 p7,
        nth_error p 4 = Some p4 /\ nth_error p 5 = Some p5
        /\ nth_error p 6 = Some p6 /\ nth_error p 7 = Some p7
        /\ result_of drawXYplane this =
           Returned
             [ {| Polygon2dSpecs.x :=
                    [Vector.x p4; Vector.x p5; Vector.x p7; Vector.x p6];
                  Polygon2dSpecs.y :=
                    [Vector.y p4; Vector.y p5; Vector.y p7; Vector.y p6];
                  Polygon2dSpecs.borderColor := "#0e2845";
                  Polygon2dSpecs.borderOpacity := 1%float;
                  Polygon2dSpecs.borderSize := 1%float;
                  Polygon2dSpecs.fillColor := "#0e2845";
                  Polygon2dSpecs.fillOpacity := 0.5%float;
                  Polygon2dSpecs.type := polygon;
                  Polygon2dSpecs.id := "xy-plane" |} ]).
Proof.
  destruct this as [[vs cs ax wx ? ?] opts]. simpl. split; intro H.
  - by_length8 vs reflexivity. simpl in H. lia.
  - expose vs H. do 4 eexists. repeat apply conj; reflexivity.
Qed.

Lemma drawXYplane_cases_witness :
  result_of drawXYplane (new Sample.short_cube Sample.everything)
  = Thrown TypeError
  /\ exists p4 p5 p6 p7,
       nth_error Sample.vertices 4 = Some p4
       /\ nth_error Sample.vertices 5 = Some p5
       /\ nth_error Sample.vertices 6 = Some p6
       /\ nth_error Sample.vertices 7 = Some p7
       /\ result_of drawXYplane (new Sample.the_cube Sample.nothing) =
          Returned
            [ {| Polygon2dSpecs.x :=
                   [Vector.x p4; Vector.x p5; Vector.x p7; Vector.x p6];
                 Polygon2dSpecs.y :=
                   [Vector.y p4; Vector.y p5; Vector.y p7; Vector.y p6];
                 Polygon2dSpecs.borderColor := "#0e2845";
                 Polygon2dSpecs.borderOpacity := 1%float;
                 Polygon2dSpecs.borderSize := 1%float;
                 Polygon2dSpecs.fillColor := "#0e2845";
                 Polygon2dSpecs.fillOpacity := 0.5%float;
                 Polygon2dSpecs.type := polygon;
                 Polygon2dSpecs.id := "xy-plane" |} ].
Proof.
  split.
  - apply (proj1 (drawXYplane_cases (new Sample.short_cube Sample.everything))).
    simpl. lia.
  - apply (proj2 (drawXYplane_cases (new Sample.the_cube Sample.nothing))).
    simpl. lia.
Defined.

(** X2: The cross-section renderer throws exactly when the snapshot has
    fewer than eight vertices or fewer than six cross-section points. *)
Theorem drawCrossSectionLines_throws_iff this :
  result_of drawCrossSectionLines this = Thrown TypeError
  <-> List.length (SceneCube.vertexPoints2d (cube this)) < 8
      \/ List.length (SceneCube.crossPoints2d (cube this)) < 6.
Proof.
  destruct this as [[vs cs ax wx ? ?] opts]. simpl.
  by_length8 vs ltac:(by_length6 cs ltac:(split; [intros _; left; simpl; lia
                                                 | intros _; reflexivity]);
                      split; [intros _; left; simpl; lia | intros _; reflexivity]).
  by_length6 cs ltac:(split; [intros _; right; simpl; lia
                             | intros _; reflexivity]).
  split; [discriminate | simpl; lia].
Qed.

(** X3: The box renderer throws exactly when sceneEdges is configured and the
    snapshot has fewer than eight vertices; switched off it never looks
    at the snapshot. *)
Theorem drawBox_throws_iff this :
  result_of drawBox this = Thrown TypeError
  <-> SceneOptions.sceneEdges (sceneOptions this) <> None
      /\ List.length (SceneCube.vertexPoints2d (cube this)) < 8.
Proof.
  destruct this as [[vs cs ax wx ? ?] [[edges |] ? ? ? ? ?]]; simpl.
  - by_length8 vs ltac:(split; [intros _; split; [discriminate | simpl; lia]
                               | intros _; reflexivity]).
    split; [discriminate | simpl; lia].
  - split; [discriminate | intros [Hse _]; contradiction].
Qed.

Lemma drawCrossSectionLines_throws_iff_witness :
  result_of drawCrossSectionLines (new Sample2.uncrossed_cube Sample.nothing)
  = Thrown TypeError
  /\ (List.length Sample.vertices < 8 \/ List.length Sample.crosses < 6 -> False).
Proof.
  split.
  - apply (proj2 (drawCrossSectionLines_throws_iff
                    (new Sample2.uncrossed_cube Sample.nothing))).
    right. simpl. lia.
  - intro Hshort.
    apply (proj2 (drawCrossSectionLines_throws_iff
                    (new Sample.the_cube Sample.nothing))) in Hshort.
    discriminate Hshort.
Defined.

Lemma drawBox_throws_iff_witness :
  result_of drawBox (new Sample.short_cube Sample.transparent_edges)
  = Thrown TypeError
  /\ result_of drawBox (new Sample.short_cube Sample.nothing)
     <> Thrown TypeError.
Proof.
  split.
  - apply (proj2 (drawBox_throws_iff
                    (new Sample.short_cube Sample.transparent_edges))).
    split; [discriminate | simpl; lia].
  - intro Hthrown.
    apply (proj1 (drawBox_throws_iff (new Sample.short_cube Sample.nothing)))
      in Hthrown.
    destruct Hthrown as [Hpresent _]. apply Hpresent. reflexivity.
Defined.

(** ** The three axis adapters *)

(** X4: The edge axes: nothing when edgeAxes is absent; when it is
    configured, a throw on fewer than eight vertices and otherwise the
    axis triple anchored at vertex 6 and running to vertices 7 (x), 4 (y)
    and 2 (z), named edge, in the configured style. *)
Theorem drawEdges_cases this :
  let p := SceneCube.vertexPoints2d (cube this) in
  (SceneOptions.edgeAxes (sceneOptions this) = None ->
   result_of drawEdges this = Returned [])
  /\ (forall style,
         SceneOptions.edgeAxes (sceneOptions this) = Some style ->
         (List.length p < 8 -> result_of drawEdges this = Thrown TypeError)
         /\ (8 <= List.length p ->
             exists p2 p4 p6 p7,
               nth_error p 2 = Some p2 /\ nth_error p 4 = Some p4
               /\ nth_error p 6 = Some p6 /\ nth_error p 7 = Some p7
               /\ result_of drawEdges this =
                  Returned (drawAxes p6 p7 p4 p2 "edge" style))).
Proof.
  destruct this as [[vs cs ax wx ? ?] [? ? ? ea ? ?]]. simpl. split.
  - intros ->. reflexivity.
  - intros style ->. split; intro H.
    + by_length8 vs reflexivity. simpl in H. lia.
    + expose vs H. do 4 eexists. repeat apply conj; reflexivity.
Qed.

Lemma drawEdges_cases_witness :
  result_of drawEdges (new Sample.short_cube Sample.nothing) = Returned []
  /\ result_of drawEdges (new Sample.short_cube Sample.everything)
     = Thrown TypeError
  /\ exists p2 p4 p6 p7,
       nth_error Sample.vertices 2 = Some p2
       /\ nth_error Sample.vertices 4 = Some p4
       /\ nth_error Sample.vertices 6 = Some p6
       /\ nth_error Sample.vertices 7 = Some p7
       /\ result_of drawEdges (new Sample.the_cube Sample.everything) =
          Returned (drawAxes p6 p7 p4 p2 "edge" Sample.axes_style).
Proof.
  split; [| split].
  - apply (proj1 (drawEdges_cases (new Sample.short_cube Sample.nothing))).
    reflexivity.
  - apply (proj2 (drawEdges_cases (new Sample.short_cube Sample.everything))
             Sample.axes_style eq_refl).
    simpl. lia.
  - apply (proj2 (drawEdges_cases (new Sample.the_cube Sample.everything))
             Sample.axes_style eq_refl).
    simpl. lia.
Defined.

(** X5: The world axes: nothing when worldAxes is absent; when it is
    configured, a throw on fewer than three world direction points and
    otherwise the axis triple anchored at the world origin and running to
    world direction points 0, 1 and 2, named worldAxes. *)
Theorem drawWorldAxes_cases this :
  let v := SceneCube.worldAxes2d (cube this) in
  (SceneOptions.worldAxes (sceneOptions this) = None ->
   result_of drawWorldAxes this = Returned [])
  /\ (forall style,
         SceneOptions.worldAxes (sceneOptions this) = Some style ->
         (List.length v < 3 -> result_of drawWorldAxes this = Thrown TypeError)
         /\ (3 <= List.length v ->
             exists v0 v1 v2,
               nth_error v 0 = Some v0 /\ nth_error v 1 = Some v1
               /\ nth_error v 2 = Some v2
               /\ result_of drawWorldAxes this =
                  Returned (drawAxes (SceneCube.worldOrigin2d (cube this))
                              v0 v1 v2 "worldAxes" style))).
Proof.
  destruct this as [[vs cs ax wx ? ?] [? ? ? ? wa ?]]. simpl. split.
  - intros ->. reflexivity.
  - intros style ->. split; intro H.
    + by_length3 wx reflexivity. simpl in H. lia.
    + expose wx H. do 3 eexists. repeat apply conj; reflexivity.
Qed.

Lemma drawWorldAxes_cases_witness :
  result_of drawWorldAxes (new Sample2.bare_cube Sample.nothing) = Returned []
  /\ result_of drawWorldAxes (new Sample2.bare_cube Sample.everything)
     = Thrown TypeError
  /\ exists v0 v1 v2,
       nth_error (SceneCube.worldAxes2d Sample.the_cube) 0 = Some v0
       /\ nth_error (SceneCube.worldAxes2d Sample.the_cube) 1 = Some v1
       /\ nth_error (SceneCube.worldAxes2d Sample.the_cube) 2 = Some v2
       /\ result_of drawWorldAxes (new Sample.the_cube Sample.everything) =
          Returned (drawAxes (Sample.pt 0 0) v0 v1 v2 "worldAxes"
                      Sample.axes_style).
Proof.
  split; [| split].
  - apply (proj1 (drawWorldAxes_cases (new Sample2.bare_cube Sample.nothing))).
    reflexivity.
  - apply (proj2 (drawWorldAxes_cases (new Sample2.bare_cube Sample.everything))
             Sample.axes_style eq_refl).
    simpl. lia.
  - apply (proj2 (drawWorldAxes_cases (new Sample.the_cube Sample.everything))
             Sample.axes_style eq_refl).
    simpl. lia.
Defined.

(** X6: The cube axes: nothing when cubeAxes is absent; when it is
    configured, a throw on fewer than three cube direction points and
    otherwise the axis triple anchored at the cube centre and running to
    cube direction points 0, 1 and 2, named axes. *)
Theorem drawCubeAxes_cases this :
  let v := SceneCube.axes2d (cube this) in
  (SceneOptions.cubeAxes (sceneOptions this) = None ->
   result_of drawCubeAxes this = Returned [])
  /\ (forall style,
         SceneOptions.cubeAxes (sceneOptions this) = Some style ->
         (List.length v < 3 -> result_of drawCubeAxes this = Thrown TypeError)
         /\ (3 <= List.length v ->
             exists v0 v1 v2,
               nth_error v 0 = Some v0 /\ nth_error v 1 = Some v1
               /\ nth_error v 2 = Some v2
               /\ result_of drawCubeAxes this =
                  Returned (drawAxes (SceneCube.center2d (cube this))
                              v0 v1 v2 "axes" style))).
Proof.
  destruct this as [[vs cs ax wx ? ?] [? ? ? ? ? ca]]. simpl. split.
  - intros ->. reflexivity.
  - intros style ->. split; intro H.
    + by_length3 ax reflexivity. simpl in H. lia.
    + expose ax H. do 3 eexists. repeat apply conj; reflexivity.
Qed.

Lemma drawCubeAxes_cases_witness :
  result_of drawCubeAxes (new Sample2.bare_cube Sample.nothing) = Returned []
  /\ result_of drawCubeAxes (new Sample2.bare_cube Sample.everything)
     = Thrown TypeError
  /\ exists v0 v1 v2,
       nth_error (SceneCube.axes2d Sample.the_cube) 0 = Some v0
       /\ nth_error (SceneCube.axes2d Sample.the_cube) 1 = Some v1
       /\ nth_error (SceneCube.axes2d Sample.the_cube) 2 = Some v2
       /\ result_of drawCubeAxes (new Sample.the_cube Sample.everything) =
          Returned (drawAxes (Sample.pt 2 1) v0 v1 v2 "axes" Sample.zero_style).
Proof.
  split; [| split].
  - apply (proj1 (drawCubeAxes_cases (new Sample2.bare_cube Sample.nothing))).
    reflexivity.
  - apply (proj2 (drawCubeAxes_cases (new Sample2.bare_cube Sample.everything))
             Sample.zero_style eq_refl).
    simpl. lia.
  - apply (proj2 (drawCubeAxes_cases (new Sample.the_cube Sample.everything))
             Sample.zero_style eq_refl).
    simpl. lia.
Defined.

(** ** When [render] throws *)

(** [render] as a cascade over the results of its calls: the first call
    to throw decides, and the second XY-plane call sees what the first
    one saw. *)
Lemma result_of_render this :
  result_of render this =
  match result_of drawBox this with
  | Thrown e => Thrown e
  | Returned box =>
  match result_of drawXYplane this with
  | Thrown e => Thrown e
  | Returned plane =>
  match result_of drawEdges this with
  | Thrown e => Thrown e
  | Returned edges =>
  match result_of drawCrossSectionLines this with
  | Thrown e => Thrown e
  | Returned cross =>
  match result_of drawWorldAxes this with
  | Thrown e => Thrown e
  | Returned world =>
  match result_of drawCubeAxes this with
  | Thrown e => Thrown e
  | Returned axes =>
      Returned (map Polygon2d box ++ map Polygon2d plane ++ edges
                  ++ map Polygon2d plane ++ map Lines2d cross ++ world ++ axes)
  end end end end end end.
Proof.
  unfold render. rewrite result_of_this_sceneOptions.
  rewrite result_of_bind by auto with receiver.
  destruct (result_of drawBox this) as [box |]; [| reflexivity].
  rewrite result_of_bind by auto with receiver.
  destruct (result_of drawXYplane this) as [plane |] eqn:Hplane; [| reflexivity].
  rewrite result_of_bind by auto with receiver.
  destruct (result_of drawEdges this) as [edges |]; [| reflexivity].
  rewrite result_of_bind, Hplane by auto with receiver.
  rewrite result_of_bind by auto with receiver.
  destruct (result_of drawCrossSectionLines this) as [cross |]; [| reflexivity].
  rewrite result_of_bind by auto with receiver.
  destruct (result_of drawWorldAxes this) as [world |]; [| reflexivity].
  rewrite result_of_bind by auto with receiver.
  destruct (result_of drawCubeAxes this) as [axes |]; reflexivity.
Qed.

Section Lengths.

Variable this : SceneCubeRenderer.
Let vs := SceneCube.vertexPoints2d (cube this).
Let cs := SceneCube.crossPoints2d (cube this).

Lemma vertices_short :
  List.length vs < 8 -> result_of drawXYplane this = Thrown TypeError.
Proof.
  subst vs. destruct this as [[l ? ? ? ? ?] ?]. simpl. intro H.
  by_length8 l reflexivity. simpl in H. lia.
Qed.

Lemma crosses_short :
  List.length cs < 6 ->
  result_of drawCrossSectionLines this = Thrown TypeError.
Proof.
  subst cs. destruct this as [[l k ? ? ? ?] ?]. simpl. intro H.
  by_length6 k ltac:(by_length8 l reflexivity; reflexivity).
  simpl in H. lia.
Qed.

Lemma world_short style :
  SceneOptions.worldAxes (sceneOptions this) = Some style ->
  List.length (SceneCube.worldAxes2d (cube this)) < 3 ->
  result_of drawWorldAxes this = Thrown TypeError.
Proof.
  destruct this as [[? ? ? l ? ?] [? ? ? ? wa ?]]. simpl. intros -> H.
  by_length3 l reflexivity. simpl in H. lia.
Qed.

Lemma axes_short style :
  SceneOptions.cubeAxes (sceneOptions this) = Some style ->
  List.length (SceneCube.axes2d (cube this)) < 3 ->
  result_of drawCubeAxes this = Thrown TypeError.
Proof.
  destruct this as [[? ? l ? ? ?] [? ? ? ? ? ca]]. simpl. intros -> H.
  by_length3 l reflexivity. simpl in H. lia.
Qed.

Lemma vertices_long :
  8 <= List.length vs ->
  (exists box, result_of drawBox this = Returned box)
  /\ (exists plane, result_of drawXYplane this = Returned [plane])
  /\ (exists edges, result_of drawEdges this = Returned edges).
Proof.
  subst vs. destruct this as [[l ? ? ? ? ?] [se ? ? ea ? ?]]. simpl. intro H.
  expose l H. repeat apply conj.
  - destruct se; eexists; reflexivity.
  - eexists; reflexivity.
  - destruct ea; eexists; reflexivity.
Qed.

Lemma crosses_long :
  8 <= List.length vs -> 6 <= List.length cs ->
  exists cross, result_of drawCrossSectionLines this = Returned [cross].
Proof.
  subst vs cs. destruct this as [[l k ? ? ? ?] ?]. simpl. intros H K.
  expose l H. expose k K. eexists; reflexivity.
Qed.

Lemma world_long :
  match SceneOptions.worldAxes (sceneOptions this) with
  | Some _ => 3 <= List.length (SceneCube.worldAxes2d (cube this))
  | None => True
  end ->
  exists world, result_of drawWorldAxes this = Returned world.
Proof.
  destruct this as [[? ? ? l ? ?] [? ? ? ? [style |] ?]]; simpl; intro H.
  - expose l H. eexists; reflexivity.
  - eexists; reflexivity.
Qed.

Lemma axes_long :
  match SceneOptions.cubeAxes (sceneOptions this) with
  | Some _ => 3 <= List.length (SceneCube.axes2d (cube this))
  | None => True
  end ->
  exists axes, result_of drawCubeAxes this = Returned axes.
Proof.
  destruct this as [[? ? l ? ? ?] [? ? ? ? ? [style |]]]; simpl; intro H.
  - expose l H. eexists; reflexivity.
  - eexists; reflexivity.
Qed.

End Lengths.

(** Step through the cascade of [result_of_render]: a call known to
    throw ends it, any other call either threw already or returned. *)
Ltac cascade :=
  repeat match goal with
         | H : result_of ?m ?t = Thrown _
           |- context [match result_of ?m ?t with _ => _ end] => rewrite H
         | |- context [match result_of ?m ?t with _ => _ end] =>
             destruct (result_of m t) as [? | []]
         end;
  try reflexivity.

(** X7: [render] returns exactly on the readable snapshots and throws a
    TypeError on every other: vertices and cross-section points are
    needed even with every feature switched off, the direction points of
    the world and cube axes only when those axes are configured. *)
Theorem render_returns_iff_readable this :
  (readable this = true -> exists out, result_of render this = Returned out)
  /\ (readable this = false -> result_of render this = Thrown TypeError).
Proof.
  rewrite result_of_render. unfold readable. split; intro H.
  - repeat (apply andb_prop in H; destruct H as [H ?]).
    apply Nat.leb_le in H.
    destruct (vertices_long this H) as ([box ->] & [plane ->] & [edges ->]).
    destruct (crosses_long this H) as [cross ->]; [now apply Nat.leb_le |].
    destruct (world_long this) as [world ->].
    { destruct (SceneOptions.worldAxes (sceneOptions this));
        [now apply Nat.leb_le | exact I]. }
    destruct (axes_long this) as [axes ->].
    { destruct (SceneOptions.cubeAxes (sceneOptions this));
        [now apply Nat.leb_le | exact I]. }
    eexists; reflexivity.
  - repeat (apply andb_false_iff in H; destruct H as [H | H]).
    + apply Nat.leb_gt, vertices_short in H. cascade.
    + apply Nat.leb_gt, crosses_short in H. cascade.
    + destruct (SceneOptions.worldAxes (sceneOptions this)) as [style |] eqn:Hw;
        [| discriminate H].
      apply Nat.leb_gt in H. apply (world_short this style Hw) in H. cascade.
    + destruct (SceneOptions.cubeAxes (sceneOptions this)) as [style |] eqn:Hc;
        [| discriminate H].
      apply Nat.leb_gt in H. apply (axes_short this style Hc) in H. cascade.
Qed.

Lemma render_returns_iff_readable_witness :
  (exists out,
      result_of render (new Sample2.bare_cube Sample2.box_and_edges)
      = Returned out)
  /\ result_of render (new Sample2.bare_cube Sample.everything)
     = Thrown TypeError
  /\ result_of render (new Sample2.uncrossed_cube Sample.nothing)
     = Thrown TypeError.
Proof.
  split; [| split].
  - apply (proj1 (render_returns_iff_readable
                    (new Sample2.bare_cube Sample2.box_and_edges))).
    reflexivity.
  - apply (proj2 (render_returns_iff_readable
                    (new Sample2.bare_cube Sample.everything))).
    reflexivity.
  - apply (proj2 (render_returns_iff_readable
                    (new Sample2.uncrossed_cube Sample.nothing))).
    reflexivity.
Defined.

(** ** What every rendered list looks like *)

Ltac each_feature opts :=
  destruct opts as [[? |] ? ? [? |] [? |] [? |]].

(** X8: On a well-formed snapshot [render] returns three primitives plus six
    when sceneEdges is configured and four for each configured axis set:
    between 3 and 21, never none. *)
Theorem render_count this :
  well_formed (cube this) = true ->
  exists out,
    result_of render this = Returned out
    /\ List.length out =
       3 + List.length (when (SceneOptions.sceneEdges (sceneOptions this))
                          POINT_FACE_SET)
       + 4 * (List.length (when (SceneOptions.edgeAxes (sceneOptions this)) [tt])
              + List.length (when (SceneOptions.worldAxes (sceneOptions this)) [tt])
              + List.length (when (SceneOptions.cubeAxes (sceneOptions this)) [tt])).
Proof.
  intro H. open_snapshot this H.
  each_feature opts; eexists; split; reflexivity.
Qed.

Lemma render_count_witness :
  exists out,
    result_of render (new Sample.the_cube Sample2.box_and_edges) = Returned out
    /\ List.length out = 3 + 6 + 4 * (1 + 0 + 0).
Proof.
  apply (render_count (new Sample.the_cube Sample2.box_and_edges)).
  reflexivity.
Defined.

(** X9: On a well-formed snapshot every primitive [render] returns is well
    shaped: its coordinate sequences have one length, a line bundle has
    at least one segment, and the type field agrees with the shape. *)
Theorem render_well_shaped this :
  well_formed (cube this) = true ->
  exists out,
    result_of render this = Returned out /\ Forall well_shaped out.
Proof.
  intro H. open_snapshot this H.
  each_feature opts; (eexists; split; [reflexivity |]);
    repeat (apply Forall_cons; [simpl; repeat apply conj; (reflexivity || lia) |]);
    apply Forall_nil.
Qed.

Lemma render_well_shaped_witness :
  exists out,
    result_of render (new Sample2.crowded_cube Sample.everything) = Returned out
    /\ Forall well_shaped out.
Proof.
  apply (render_well_shaped (new Sample2.crowded_cube Sample.everything)).
  reflexivity.
Defined.

(** X10: The tags of a rendered list are fixed by which features are
    configured, not by any coordinate, colour or size: plane-0 to plane-5
    when sceneEdges is on, xy-plane, three times x-edge and point-edge
    when edgeAxes is on, xy-plane again, cross-section-lines, three times
    x-worldAxes and point-worldAxes when worldAxes is on, three times
    x-axes and point-axes when cubeAxes is on. *)
Theorem render_tags this :
  well_formed (cube this) = true ->
  let opts := sceneOptions this in
  tags (result_of render this) =
  Returned
    (when (SceneOptions.sceneEdges opts)
       ["plane-0"; "plane-1"; "plane-2"; "plane-3"; "plane-4"; "plane-5"]
     ++ ["xy-plane"]
     ++ when (SceneOptions.edgeAxes opts)
          ["x-edge"; "x-edge"; "x-edge"; "point-edge"]
     ++ ["xy-plane"; "cross-section-lines"]
     ++ when (SceneOptions.worldAxes opts)
          ["x-worldAxes"; "x-worldAxes"; "x-worldAxes"; "point-worldAxes"]
     ++ when (SceneOptions.cubeAxes opts)
          ["x-axes"; "x-axes"; "x-axes"; "point-axes"]).
Proof.
  intro H. open_snapshot this H.
  each_feature opts; reflexivity.
Qed.

Lemma render_tags_witness :
  tags (result_of render (new Sample.the_cube Sample2.box_and_edges)) =
  Returned
    [ "plane-0"; "plane-1"; "plane-2"; "plane-3"; "plane-4"; "plane-5";
      "xy-plane"; "x-edge"; "x-edge"; "x-edge"; "point-edge";
      "xy-plane"; "cross-section-lines" ].
Proof.
  apply (render_tags (new Sample.the_cube Sample2.box_and_edges)).
  reflexivity.
Defined.

(** X11: Tags do not identify primitives: in every list [render] returns on a
    well-formed snapshot the tag xy-plane occurs exactly twice, so the
    tags are never pairwise distinct. *)
Theorem render_tags_repeat this :
  well_formed (cube this) = true ->
  exists out,
    result_of render this = Returned out
    /\ count_occ string_dec (map tag out) "xy-plane" = 2
    /\ ~ NoDup (map tag out).
Proof.
  intro H. open_snapshot this H.
  assert (Hcount : forall l : list string,
             count_occ string_dec l "xy-plane" = 2 -> ~ NoDup l).
  { intros l Htwice Hnodup.
    pose proof (proj1 (NoDup_count_occ string_dec l) Hnodup "xy-plane").
    lia. }
  each_feature opts;
    (eexists; split; [reflexivity |]);
    (split; [reflexivity | apply Hcount; reflexivity]).
Qed.

Lemma render_tags_repeat_witness :
  exists out,
    result_of render (new Sample.the_cube Sample.nothing) = Returned out
    /\ count_occ string_dec (map tag out) "xy-plane" = 2
    /\ ~ NoDup (map tag out).
Proof.
  apply (render_tags_repeat (new Sample.the_cube Sample.nothing)).
  reflexivity.
Defined.

(** ** Which points of the snapshot matter *)

Section FirstPoints.

Variable c : SceneCube.t.
Variable o : SceneOptions.t.

Lemma first_points_drawBox :
  result_of drawBox (new c o) = result_of drawBox (new (first_points c) o).
Proof.
  destruct c as [l ? ? ? ? ?], o as [[edges |] ? ? ? ? ?];
    [| reflexivity].
  by_length8 l reflexivity. reflexivity.
Qed.

Lemma first_points_drawXYplane :
  result_of drawXYplane (new c o)
  = result_of drawXYplane (new (first_points c) o).
Proof.
  destruct c as [l ? ? ? ? ?]. by_length8 l reflexivity. reflexivity.
Qed.

Lemma first_points_drawEdges :
  result_of drawEdges (new c o) = result_of drawEdges (new (first_points c) o).
Proof.
  destruct c as [l ? ? ? ? ?], o as [? ? ? [style |] ? ?];
    [| reflexivity].
  by_length8 l reflexivity. reflexivity.
Qed.

Lemma first_points_drawCrossSectionLines :
  result_of drawCrossSectionLines (new c o)
  = result_of drawCrossSectionLines (new (first_points c) o).
Proof.
  destruct c as [l k ? ? ? ?].
  by_length6 k ltac:(by_length8 l reflexivity; reflexivity).
  by_length8 l reflexivity. reflexivity.
Qed.

Lemma first_points_drawWorldAxes :
  result_of drawWorldAxes (new c o)
  = result_of drawWorldAxes (new (first_points c) o).
Proof.
  destruct c as [? ? ? l ? ?], o as [? ? ? ? [style |] ?];
    [| reflexivity].
  by_length3 l reflexivity. reflexivity.
Qed.

Lemma first_points_drawCubeAxes :
  result_of drawCubeAxes (new c o)
  = result_of drawCubeAxes (new (first_points c) o).
Proof.
  destruct c as [? ? l ? ? ?], o as [? ? ? ? ? [style |]];
    [| reflexivity].
  by_length3 l reflexivity. reflexivity.
Qed.

End FirstPoints.

(** X12: [render] reads vertices 0 to 7, cross-section points 0 to 5 and
    direction points 0 to 2 and nothing past them: on any snapshot, short
    or long, cutting the four point arrays down to these leaves the
    result as it was. *)
Theorem render_reads_first_points c o :
  result_of render (new c o) = result_of render (new (first_points c) o).
Proof.
  rewrite !result_of_render.
  rewrite <- first_points_drawBox, <- first_points_drawXYplane,
    <- first_points_drawEdges, <- first_points_drawCrossSectionLines,
    <- first_points_drawWorldAxes, <- first_points_drawCubeAxes.
  reflexivity.
Qed.

Section UnusedPoints.

(** Two snapshots with the same vertices. *)
Variables c1 c2 : SceneCube.t.
Variable o : SceneOptions.t.
Hypothesis same_vertices :
  SceneCube.vertexPoints2d c1 = SceneCube.vertexPoints2d c2.

Lemma same_vertices_drawBox :
  result_of drawBox (new c1 o) = result_of drawBox (new c2 o).
Proof.
  unfold drawBox. read_fields.
  destruct (SceneOptions.sceneEdges o); [| reflexivity].
  read_fields. rewrite same_vertices. agree_steps.
Qed.

Lemma same_vertices_drawXYplane :
  result_of drawXYplane (new c1 o) = result_of drawXYplane (new c2 o).
Proof.
  unfold drawXYplane. read_fields. rewrite same_vertices. agree_steps.
Qed.

Lemma same_vertices_drawEdges :
  result_of drawEdges (new c1 o) = result_of drawEdges (new c2 o).
Proof.
  unfold drawEdges. read_fields.
  destruct (SceneOptions.edgeAxes o); [| reflexivity].
  read_fields. rewrite same_vertices. agree_steps.
Qed.

Lemma same_points_drawCrossSectionLines :
  SceneCube.crossPoints2d c1 = SceneCube.crossPoints2d c2 ->
  result_of drawCrossSectionLines (new c1 o)
  = result_of drawCrossSectionLines (new c2 o).
Proof.
  intro same_crosses.
  unfold drawCrossSectionLines. read_fields.
  rewrite same_vertices, same_crosses. agree_steps.
Qed.

Lemma same_world_drawWorldAxes :
  (SceneOptions.worldAxes o = None
   \/ (SceneCube.worldAxes2d c1 = SceneCube.worldAxes2d c2
       /\ SceneCube.worldOrigin2d c1 = SceneCube.worldOrigin2d c2)) ->
  result_of drawWorldAxes (new c1 o) = result_of drawWorldAxes (new c2 o).
Proof.
  intro Hworld. unfold drawWorldAxes. read_fields.
  destruct (SceneOptions.worldAxes o); [| reflexivity].
  destruct Hworld as [Hoff | [Hdirs Horigin]]; [discriminate Hoff |].
  read_fields. rewrite Hdirs, Horigin. agree_steps.
Qed.

Lemma same_axes_drawCubeAxes :
  (SceneOptions.cubeAxes o = None
   \/ (SceneCube.axes2d c1 = SceneCube.axes2d c2
       /\ SceneCube.center2d c1 = SceneCube.center2d c2)) ->
  result_of drawCubeAxes (new c1 o) = result_of drawCubeAxes (new c2 o).
Proof.
  intro Haxes. unfold drawCubeAxes. read_fields.
  destruct (SceneOptions.cubeAxes o); [| reflexivity].
  destruct Haxes as [Hoff | [Hdirs Hcentre]]; [discriminate Hoff |].
  read_fields. rewrite Hdirs, Hcentre. agree_steps.
Qed.

End UnusedPoints.

(** X13: The points of a switched-off axis set are never read: two snapshots
    with the same vertices and cross-section points give the same result
    as soon as they agree on the world origin and directions unless
    worldAxes is absent, and on the cube centre and directions unless
    cubeAxes is absent. *)
Theorem render_ignores_unused_points c1 c2 o :
  SceneCube.vertexPoints2d c1 = SceneCube.vertexPoints2d c2 ->
  SceneCube.crossPoints2d c1 = SceneCube.crossPoints2d c2 ->
  (SceneOptions.worldAxes o = None
   \/ (SceneCube.worldAxes2d c1 = SceneCube.worldAxes2d c2
       /\ SceneCube.worldOrigin2d c1 = SceneCube.worldOrigin2d c2)) ->
  (SceneOptions.cubeAxes o = None
   \/ (SceneCube.axes2d c1 = SceneCube.axes2d c2
       /\ SceneCube.center2d c1 = SceneCube.center2d c2)) ->
  result_of render (new c1 o) = result_of render (new c2 o).
Proof.
  intros Hv Hc Hw Ha.
  rewrite !result_of_render.
  rewrite (same_vertices_drawBox c1 c2 o Hv),
    (same_vertices_drawXYplane c1 c2 o Hv),
    (same_vertices_drawEdges c1 c2 o Hv),
    (same_points_drawCrossSectionLines c1 c2 o Hv Hc),
    (same_world_drawWorldAxes c1 c2 o Hw),
    (same_axes_drawCubeAxes c1 c2 o Ha).
  reflexivity.
Qed.

Lemma render_ignores_unused_points_witness :
  SceneCube.axes2d Sample.the_cube <> SceneCube.axes2d Sample2.bare_cube
  /\ SceneCube.worldAxes2d Sample.the_cube
     <> SceneCube.worldAxes2d Sample2.bare_cube
  /\ result_of render (new Sample.the_cube Sample2.box_and_edges)
     = result_of render (new Sample2.bare_cube Sample2.box_and_edges).
Proof.
  split; [discriminate |]. split; [discriminate |].
  apply (render_ignores_unused_points Sample.the_cube Sample2.bare_cube
           Sample2.box_and_edges).
  - reflexivity.
  - reflexivity.
  - left. reflexivity.
  - left. reflexivity.
Defined.

(** ** Configured styling values *)



(** ** The loop around the XY plane *)

(** X15: On a well-formed snapshot the last four segments of the
    cross-section bundle form a closed loop: segment 4 starts where
    segment 7 ends and each of segments 5, 6 and 7 starts where the one
    before ends; and the points the four segments end in are the corners
    of the XY-plane polygon, in the polygon's order. *)
Theorem cross_section_loop this :
  well_formed (cube this) = true ->
  exists plane cross,
    result_of drawXYplane this = Returned [plane]
    /\ result_of drawCrossSectionLines this = Returned [cross]
    /\ skipn 4 (Lines2dSpecs.x1 cross) = Polygon2dSpecs.x plane
    /\ skipn 4 (Lines2dSpecs.y1 cross) = Polygon2dSpecs.y plane
    /\ skipn 4 (Lines2dSpecs.x0 cross)
       = skipn 7 (Lines2dSpecs.x1 cross)
           ++ firstn 3 (skipn 4 (Lines2dSpecs.x1 cross))
    /\ skipn 4 (Lines2dSpecs.y0 cross)
       = skipn 7 (Lines2dSpecs.y1 cross)
           ++ firstn 3 (skipn 4 (Lines2dSpecs.y1 cross)).
Proof.
  intro H. open_snapshot this H.
  do 2 eexists. repeat apply conj; reflexivity.
Qed.

Lemma cross_section_loop_witness :
  exists plane cross,
    result_of drawXYplane (new Sample.the_cube Sample.nothing) = Returned [plane]
    /\ result_of drawCrossSectionLines (new Sample.the_cube Sample.nothing)
       = Returned [cross]
    /\ skipn 4 (Lines2dSpecs.x1 cross) = Polygon2dSpecs.x plane
    /\ skipn 4 (Lines2dSpecs.y1 cross) = Polygon2dSpecs.y plane
    /\ skipn 4 (Lines2dSpecs.x0 cross)
       = skipn 7 (Lines2dSpecs.x1 cross)
           ++ firstn 3 (skipn 4 (Lines2dSpecs.x1 cross))
    /\ skipn 4 (Lines2dSpecs.y0 cross)
       = skipn 7 (Lines2dSpecs.y1 cross)
           ++ firstn 3 (skipn 4 (Lines2dSpecs.y1 cross)).
Proof.
  apply (cross_section_loop (new Sample.the_cube Sample.nothing)).
  reflexivity.
Defined.

(** ** Winding of the face table *)

(** X16: Every face of the table is wound along cube edges: each corner and
    the next one, and the last corner and the first, are the two ends of
    one edge of the cube, never a diagonal; and each of the twelve edges
    is walked by exactly two faces. *)
Theorem POINT_FACE_SET_winds_along_edges :
  Forall (fun face =>
            forallb (fun ab => along_an_edge (fst ab) (snd ab)) (border face)
            = true) POINT_FACE_SET
  /\ Forall (fun a =>
               Forall (fun b =>
                         along_an_edge a b = true ->
                         List.length
                           (filter (fun ab =>
                                      ((fst ab =? a) && (snd ab =? b)
                                       || (fst ab =? b) && (snd ab =? a))%nat)
                                   (flat_map border POINT_FACE_SET)) = 2)
                      (seq 0 8))
            (seq 0 8).
Proof.
  split.
  - unfold POINT_FACE_SET.
    repeat (apply Forall_cons; [reflexivity |]). apply Forall_nil.
  - simpl seq.
    repeat (apply Forall_cons;
            [ repeat (apply Forall_cons;
                      [ let E := fresh in
                        intro E; (reflexivity || discriminate E) |]);
              apply Forall_nil |]).
    apply Forall_nil.
Qed.
